(** * Google Sheets integration: API client and integration controller

    A shallow embedding of [services/googleSheetsAPI.ts] and of
    [components/GoogleSheetsIntegration.tsx].

    - JavaScript strings are represented by their generalized UTF-8 bytes
      ([string]): every code point by its UTF-8 sequence, an unpaired
      surrogate included (the three bytes [ED A0..BF 80..BF]), a surrogate
      pair by the four bytes of the code point it stands for.
    - An [async] function is a value of the resumption monad [Proc]: a
      sequence of synchronous commands ([Do]) interrupted by suspension
      points ([Await]) at which a promise settles.
    - The seven [useState] cells of the component form the record [State];
      a setter call is a command.
    - The JSX returned by the component is a tree of [Node]s whose
      [onClick] attributes carry the handler to run. *)

From Stdlib Require Import List String Ascii Bool Arith ZArith Lia.
From Stdlib Require Import DecimalString Relation_Operators.
Import ListNotations.
Open Scope string_scope.

(* ================================================================== *)
(** ** Data model ([googleSheetsAPI.ts], lines 5-21) *)

Module Sheet.
Record t : Type := mk
  { sheet_id : Z; title : string; index : Z; sheet_type : string }.
End Sheet.

Module SpreadsheetInfo.
Record t : Type := mk
  { spreadsheet_id : string; title : string; sheets : list Sheet.t }.
End SpreadsheetInfo.

Module SheetData.
Record t : Type := mk
  { spreadsheet_id : string;
    sheet_name : string;
    data : list (list string);
    headers : list string }.
End SheetData.

(** The seven state cells of the component (lines 6-12). *)
Record State : Type := mkState
  { isAuthenticated : bool;
    isLoading : bool;
    spreadsheets : list SpreadsheetInfo.t;
    selectedSpreadsheet : option SpreadsheetInfo.t;
    selectedSheet : string;
    sheetData : option SheetData.t;
    error : string }.

Definition initialState : State :=
  {| isAuthenticated := false; isLoading := false; spreadsheets := [];
     selectedSpreadsheet := None; selectedSheet := ""; sheetData := None;
     error := "" |}.

(* ================================================================== *)
(** ** Platform: strings, [encodeURIComponent], [URLSearchParams] *)

(** Characters that [encodeURIComponent] leaves alone:
    [A-Z a-z 0-9 - _ . ! ~ * ' ( )]. *)
Definition uriUnreserved (c : ascii) : bool :=
  let n := nat_of_ascii c in
  ((65 <=? n)%nat && (n <=? 90)%nat) || ((97 <=? n)%nat && (n <=? 122)%nat)
  || ((48 <=? n)%nat && (n <=? 57)%nat)
  || existsb (Ascii.eqb c) (list_ascii_of_string "-_.!~*'()").

Definition hexDigit (n : nat) : ascii :=
  nth n (list_ascii_of_string "0123456789ABCDEF") "0"%char.

(** Every byte that is not unreserved becomes [%XX] (upper-case hex): the
    UTF-8 bytes of each code point outside the unreserved set are
    escaped. *)
Fixpoint percentEncode (s : string) : string :=
  match s with
  | EmptyString => EmptyString
  | String c rest =>
      if uriUnreserved c then String c (percentEncode rest)
      else
        let n := nat_of_ascii c in
        String "%" (String (hexDigit (n / 16)) (String (hexDigit (n mod 16))
          (percentEncode rest)))
  end.

(** An unpaired surrogate starts here: the byte [ED] followed by a byte in
    [A0..BF] (the code points [D800..DFFF]; a surrogate pair is written as
    the four bytes of its code point and has no byte [ED]). *)
Definition surrogateAt (s : string) : bool :=
  match s with
  | String c (String d _) =>
      (nat_of_ascii c =? 237)%nat
      && (160 <=? nat_of_ascii d)%nat && (nat_of_ascii d <=? 191)%nat
  | _ => false
  end.

(** No unpaired surrogate anywhere in the string. *)
Fixpoint wellFormed (s : string) : bool :=
  match s with
  | EmptyString => true
  | String c rest => negb (surrogateAt (String c rest)) && wellFormed rest
  end.

(** The built-in: it throws [URIError] on a string with an unpaired
    surrogate ([None]) and percent-encodes every other string. *)
Definition encodeURIComponent (s : string) : option string :=
  if wellFormed s then Some (percentEncode s) else None.

(** [URLSearchParams]: the parsed query, in order; [get] answers the first
    value stored under the name, or nothing ([null]). *)
Definition URLSearchParams : Type := list (string * string).

Fixpoint get (params : URLSearchParams) (name : string) : option string :=
  match params with
  | [] => None
  | (k, v) :: rest => if String.eqb k name then Some v else get rest name
  end.

(** [x || d] on a possibly missing string: [undefined], [null] and the
    empty string are falsy. *)
Definition or_else (x : option string) (d : string) : string :=
  match x with
  | Some EmptyString | None => d
  | Some v => v
  end.

(** Decimal rendering of a [length]. *)
Definition show_nat (n : nat) : string :=
  NilEmpty.string_of_uint (Nat.to_uint n).

(** [Array.prototype.map] with the callback's index argument. *)
Fixpoint mapi_from {A B : Type} (i : nat) (f : A -> nat -> B) (l : list A)
  : list B :=
  match l with
  | [] => []
  | x :: rest => f x i :: mapi_from (S i) f rest
  end.

Definition mapi {A B : Type} (f : A -> nat -> B) (l : list A) : list B :=
  mapi_from 0 f l.

(* ================================================================== *)
(** ** Promises and the asynchronous-function monad *)

Record Error : Type := mkError { message : string }.

(** How a promise settles. *)
Inductive Settled (A : Type) : Type :=
| Fulfilled (v : A)
| Rejected (reason : Error).
Arguments Fulfilled {A} v.
Arguments Rejected {A} reason.

(** Response bodies of the five backend endpoints, as the client's types
    declare them. *)
Inductive Shape : Type :=
| AuthStatusBody | AuthLoginBody | EmptyBody | SpreadsheetsBody | SheetDataBody.

Record AuthStatus : Type := { authenticated : bool }.
Record AuthLogin : Type := { auth_url : string }.

Definition body (sh : Shape) : Type :=
  match sh with
  | AuthStatusBody => AuthStatus
  | AuthLoginBody => AuthLogin
  | EmptyBody => unit
  | SpreadsheetsBody => list SpreadsheetInfo.t
  | SheetDataBody => SheetData.t
  end.

Record AxiosResponse (T : Type) : Type := { data : T }.
Arguments data {T} _.

(** The promises the program awaits: axios requests and the one-second
    timer of [sendToBackend]. *)
Inductive Promise : Type :=
| axios_get (sh : Shape) (url : string)
| axios_post (sh : Shape) (url : string)
| timer (ms : nat).

Definition value (p : Promise) : Type :=
  match p with
  | axios_get sh _ | axios_post sh _ => AxiosResponse (body sh)
  | timer _ => unit
  end.

(** Synchronous side effects: the state setters, the console, [alert],
    and the two writes to the address bar. *)
Inductive Cmd : Type :=
| setIsAuthenticated (b : bool)
| setIsLoading (b : bool)
| setSpreadsheets (l : list SpreadsheetInfo.t)
| setSelectedSpreadsheet (sp : option SpreadsheetInfo.t)
| setSelectedSheet (name : string)
| setSheetData (d : option SheetData.t)
| setError (msg : string)
| console_error (msg : string)
| console_log (msg : string)
| alert (msg : string)
| history_replaceState (path : string)
| location_href_assign (url : string).

Inductive Proc (A : Type) : Type :=
| Return (a : A)
| Throw (e : Error)
| Do (c : Cmd) (k : Proc A)
| Await (p : Promise) (k : Settled (value p) -> Proc A).
Arguments Return {A} a.
Arguments Throw {A} e.
Arguments Do {A} c k.
Arguments Await {A} p k.

Fixpoint bind {A B : Type} (m : Proc A) (f : A -> Proc B) : Proc B :=
  match m with
  | Return a => f a
  | Throw e => Throw e
  | Do c k => Do c (bind k f)
  | Await p k => Await p (fun r => bind (k r) f)
  end.

Notation "x <- m ;; k" := (bind m (fun x => k))
  (at level 61, m at next level, right associativity).
Notation "m ;; k" := (bind m (fun _ => k))
  (at level 61, right associativity).

Definition do_ (c : Cmd) : Proc unit := Do c (Return tt).

(** The value of an expression that may throw. *)
Definition evaluated {A : Type} (x : option A) (e : Error) : Proc A :=
  match x with
  | Some v => Return v
  | None => Throw e
  end.

(** [await p]: the value on fulfilment, a throw on rejection. *)
Definition await (p : Promise) : Proc (value p) :=
  Await p (fun r =>
    match r with Fulfilled v => Return v | Rejected e => Throw e end).

(** [try { body } catch (e) { handler e }]. *)
Fixpoint try_catch {A : Type} (body : Proc A) (handler : Error -> Proc A)
  : Proc A :=
  match body with
  | Return a => Return a
  | Throw e => handler e
  | Do c k => Do c (try_catch k handler)
  | Await p k => Await p (fun r => try_catch (k r) handler)
  end.

(** [try { body } finally { fin }]: [fin] runs on both exits. *)
Fixpoint try_finally {A : Type} (body : Proc A) (fin : Proc unit) : Proc A :=
  match body with
  | Return a => fin ;; Return a
  | Throw e => fin ;; Throw e
  | Do c k => Do c (try_finally k fin)
  | Await p k => Await p (fun r => try_finally (k r) fin)
  end.

(* ================================================================== *)
(** ** The API client ([googleSheetsAPI.ts], lines 23-74) *)

Definition API_BASE_URL : string := "http://localhost:8082".

Module googleSheetsAPI.

Definition checkAuthStatus : Proc bool :=
  try_catch
    (response <- await (axios_get AuthStatusBody (API_BASE_URL ++ "/auth/status")) ;;
     Return (authenticated (data response)))
    (fun _ =>
       do_ (console_error "Error checking auth status:") ;;
       Return false).

Definition initiateLogin : Proc string :=
  try_catch
    (response <- await (axios_get AuthLoginBody (API_BASE_URL ++ "/auth/login")) ;;
     Return (auth_url (data response)))
    (fun _ =>
       do_ (console_error "Error initiating login:") ;;
       Throw (mkError "Failed to initiate Google OAuth")).

Definition logout : Proc unit :=
  try_catch
    (_ <- await (axios_post EmptyBody (API_BASE_URL ++ "/auth/logout")) ;;
     Return tt)
    (fun _ =>
       do_ (console_error "Error logging out:") ;;
       Throw (mkError "Failed to logout")).

Definition getSpreadsheets : Proc (list SpreadsheetInfo.t) :=
  try_catch
    (response <- await (axios_get SpreadsheetsBody (API_BASE_URL ++ "/spreadsheets")) ;;
     Return (data response))
    (fun _ =>
       do_ (console_error "Error fetching spreadsheets:") ;;
       Throw (mkError "Failed to fetch spreadsheets")).

Definition getSheetData (spreadsheetId sheetName : string)
  : Proc SheetData.t :=
  try_catch
    (segment <- evaluated (encodeURIComponent sheetName)
                  (mkError "URI malformed") ;;
     response <- await (axios_get SheetDataBody
         (API_BASE_URL ++ "/spreadsheet/" ++ spreadsheetId ++ "/sheet/"
            ++ segment)) ;;
     Return (data response))
    (fun _ =>
       do_ (console_error "Error fetching sheet data:") ;;
       Throw (mkError "Failed to fetch sheet data")).

End googleSheetsAPI.

(* ================================================================== *)
(** ** The page: component state, address bar, in-flight requests *)

Record Location : Type := { pathname : string; search : URLSearchParams }.

(** An asynchronous function suspended at an [await]. *)
Record Suspended : Type := suspend
  { awaited : Promise;
    resume : Settled (value awaited) -> Proc unit }.

Record World : Type := mkWorld
  { state : State;
    location : Location;
    navigated : option string;   (* set once [window.location.href] is assigned *)
    console : list string;
    alerts : list string;
    issued : list Promise;       (* every promise awaited so far, in order *)
    inflight : list Suspended }.

Definition with_state (f : State -> State) (w : World) : World :=
  {| state := f (state w); location := location w; navigated := navigated w;
     console := console w; alerts := alerts w; issued := issued w;
     inflight := inflight w |}.

Definition with_inflight (l : list Suspended) (w : World) : World :=
  {| state := state w; location := location w; navigated := navigated w;
     console := console w; alerts := alerts w; issued := issued w;
     inflight := l |}.

Definition issue (p : Promise) (w : World) : World :=
  {| state := state w; location := location w; navigated := navigated w;
     console := console w; alerts := alerts w;
     issued := (issued w ++ [p])%list; inflight := inflight w |}.

Definition update (c : Cmd) (s : State) : State :=
  match c with
  | setIsAuthenticated b =>
      mkState b (isLoading s) (spreadsheets s) (selectedSpreadsheet s)
        (selectedSheet s) (sheetData s) (error s)
  | setIsLoading b =>
      mkState (isAuthenticated s) b (spreadsheets s) (selectedSpreadsheet s)
        (selectedSheet s) (sheetData s) (error s)
  | setSpreadsheets l =>
      mkState (isAuthenticated s) (isLoading s) l (selectedSpreadsheet s)
        (selectedSheet s) (sheetData s) (error s)
  | setSelectedSpreadsheet sp =>
      mkState (isAuthenticated s) (isLoading s) (spreadsheets s) sp
        (selectedSheet s) (sheetData s) (error s)
  | setSelectedSheet name =>
      mkState (isAuthenticated s) (isLoading s) (spreadsheets s)
        (selectedSpreadsheet s) name (sheetData s) (error s)
  | setSheetData d =>
      mkState (isAuthenticated s) (isLoading s) (spreadsheets s)
        (selectedSpreadsheet s) (selectedSheet s) d (error s)
  | setError msg =>
      mkState (isAuthenticated s) (isLoading s) (spreadsheets s)
        (selectedSpreadsheet s) (selectedSheet s) (sheetData s) msg
  | _ => s
  end.

Definition exec (c : Cmd) (w : World) : World :=
  match c with
  | console_error msg | console_log msg =>
      {| state := state w; location := location w; navigated := navigated w;
         console := (console w ++ [msg])%list; alerts := alerts w;
         issued := issued w; inflight := inflight w |}
  | alert msg =>
      {| state := state w; location := location w; navigated := navigated w;
         console := console w; alerts := (alerts w ++ [msg])%list;
         issued := issued w; inflight := inflight w |}
  | history_replaceState path =>
      {| state := state w; location := {| pathname := path; search := [] |};
         navigated := navigated w; console := console w; alerts := alerts w;
         issued := issued w; inflight := inflight w |}
  | location_href_assign url =>
      {| state := state w; location := location w; navigated := Some url;
         console := console w; alerts := alerts w; issued := issued w;
         inflight := inflight w |}
  | _ => with_state (update c) w
  end.

(** The backend and the timer, as seen from the page: how each awaited
    promise settles. *)
Definition Network : Type := forall p : Promise, Settled (value p).

(** Run an asynchronous function to completion, every promise settling as
    [net] says and nothing else happening in between. *)
Fixpoint run {A : Type} (net : Network) (t : Proc A) (w : World)
  : World * Settled A :=
  match t with
  | Return a => (w, Fulfilled a)
  | Throw e => (w, Rejected e)
  | Do c k => run net k (exec c w)
  | Await p k => run net (k (net p)) (issue p w)
  end.

(** Call an asynchronous function without awaiting it: its synchronous
    prefix runs now, and it is parked at its first [await]. *)
Fixpoint launch (t : Proc unit) (w : World) : World :=
  match t with
  | Return _ | Throw _ => w
  | Do c k => launch k (exec c w)
  | Await p k => with_inflight (inflight w ++ [suspend p k])%list (issue p w)
  end.

(* ================================================================== *)
(** ** The integration controller ([GoogleSheetsIntegration.tsx]) *)

Definition is_string (x : option string) (s : string) : bool :=
  match x with Some v => String.eqb v s | None => false end.

Module GoogleSheetsIntegration.

(** Lines 66-77. *)
Definition loadSpreadsheets : Proc unit :=
  try_finally
    (try_catch
       (do_ (setIsLoading true) ;;
        do_ (setError "") ;;
        sheets <- googleSheetsAPI.getSpreadsheets ;;
        do_ (setSpreadsheets sheets))
       (fun _ => do_ (setError "Failed to load spreadsheets")))
    (do_ (setIsLoading false)).

(** Lines 29-39. *)
Definition checkAuthStatus : Proc unit :=
  try_catch
    (authenticated <- googleSheetsAPI.checkAuthStatus ;;
     do_ (setIsAuthenticated authenticated) ;;
     if authenticated : bool then loadSpreadsheets else Return tt)
    (fun _ => do_ (console_error "Error checking auth status:")).

(** Lines 41-51. *)
Definition handleLogin : Proc unit :=
  try_catch
    (do_ (setIsLoading true) ;;
     do_ (setError "") ;;
     authUrl <- googleSheetsAPI.initiateLogin ;;
     do_ (location_href_assign authUrl))
    (fun _ =>
       do_ (setError "Failed to initiate Google login") ;;
       do_ (setIsLoading false)).

(** Lines 53-64. *)
Definition handleLogout : Proc unit :=
  try_catch
    (googleSheetsAPI.logout ;;
     do_ (setIsAuthenticated false) ;;
     do_ (setSpreadsheets []) ;;
     do_ (setSelectedSpreadsheet None) ;;
     do_ (setSelectedSheet "") ;;
     do_ (setSheetData None))
    (fun _ => do_ (setError "Failed to logout")).

(** Lines 79-83. *)
Definition handleSpreadsheetSelect (spreadsheet : SpreadsheetInfo.t)
  : Proc unit :=
  do_ (setSelectedSpreadsheet (Some spreadsheet)) ;;
  do_ (setSelectedSheet "") ;;
  do_ (setSheetData None).

(** Lines 85-99. The handler closes over the state of the render that
    created it; [s] is that state. *)
Definition handleSheetSelect (s : State) (sheetName : string) : Proc unit :=
  match selectedSpreadsheet s with
  | None => Return tt
  | Some sel =>
      try_finally
        (try_catch
           (do_ (setIsLoading true) ;;
            do_ (setError "") ;;
            do_ (setSelectedSheet sheetName) ;;
            data <- googleSheetsAPI.getSheetData
                      (SpreadsheetInfo.spreadsheet_id sel) sheetName ;;
            do_ (setSheetData (Some data)))
           (fun _ => do_ (setError "Failed to load sheet data")))
        (do_ (setIsLoading false))
  end.

(** Lines 101-129. The payload is only written to the console; the
    "API call" is a one-second timer. *)
Definition sendToBackend (s : State) : Proc unit :=
  match sheetData s with
  | None => Return tt
  | Some _ =>
      try_finally
        (try_catch
           (do_ (setIsLoading true) ;;
            do_ (setError "") ;;
            do_ (console_log "Sending data to backend:") ;;
            await (timer 1000) ;;
            do_ (alert "Data successfully sent to backend!"))
           (fun _ => do_ (setError "Failed to send data to backend")))
        (do_ (setIsLoading false))
  end.

(** The mount effect, lines 14-27: [checkAuthStatus()] is called and not
    awaited, then the OAuth outcome in the query is consumed. *)
Definition useEffect (w0 : World) : World :=
  let w := launch checkAuthStatus w0 in
  let urlParams := search (location w) in
  if is_string (get urlParams "auth") "success" then
    exec (history_replaceState (pathname (location w)))
      (exec (setIsAuthenticated true) w)
  else if is_string (get urlParams "auth") "error" then
    exec (history_replaceState (pathname (location w)))
      (exec (setError (or_else (get urlParams "message")
                         "Authentication failed")) w)
  else w.

End GoogleSheetsIntegration.

(* ================================================================== *)
(** ** The rendered view (lines 131-278) *)

(** What an [onClick] attribute runs. *)
Inductive Action : Type :=
| OnLogin                                       (* handleLogin *)
| OnLogout                                      (* handleLogout *)
| OnRefresh                                     (* loadSpreadsheets *)
| OnSpreadsheet (spreadsheet : SpreadsheetInfo.t) (* handleSpreadsheetSelect *)
| OnSheet (title : string)                      (* handleSheetSelect *)
| OnSend.                                       (* sendToBackend *)

#[warnings="-register-all"] Inductive Node : Type :=
| Text (s : string)
| Elem (tag className : string) (onClick : option Action) (disabled : bool)
       (children : list Node).

Definition el (tag className : string) (children : list Node) : Node :=
  Elem tag className None false children.
Definition div := el "div".
Definition button (className : string) (a : Action) (disabled : bool)
  (children : list Node) : Node :=
  Elem "button" className (Some a) disabled children.
Definition icon (name className : string) : Node := el name className [].

(** [{cond && <element/>}]. *)
Definition when (cond : bool) (n : Node) : list Node :=
  if cond then [n] else [].

Definition nonempty (s : string) : bool :=
  match s with EmptyString => false | _ => true end.

Definition dquote : string := String (ascii_of_nat 34) EmptyString.

Module View.
Import GoogleSheetsIntegration.

Definition errorBanner (s : State) : list Node :=
  when (nonempty (error s)) (div "error-message" [Text (error s)]).

(** Lines 132-160. *)
Definition unauthenticated (s : State) : Node :=
  div "integration-container"
    [div "auth-section"
       ([icon "FileSpreadsheet" "icon";
         el "h2" "" [Text "Google Sheets Integration"];
         el "p" "" [Text "Connect to your Google Sheets to import data"]]
        ++ errorBanner s
        ++ [button "connect-button" OnLogin (isLoading s)
              (if isLoading s
               then [icon "RefreshCw" "spin"; Text "Connecting..."]
               else [icon "ExternalLink" "";
                     Text "Connect to Google Sheets"])])%list].

(** Lines 191-203. *)
Definition spreadsheetCard (s : State) (spreadsheet : SpreadsheetInfo.t)
  : Node :=
  Elem "div"
    ("spreadsheet-card " ++
     (if is_string
           (option_map SpreadsheetInfo.spreadsheet_id (selectedSpreadsheet s))
           (SpreadsheetInfo.spreadsheet_id spreadsheet)
      then "selected" else ""))
    (Some (OnSpreadsheet spreadsheet)) false
    [icon "FileSpreadsheet" "";
     div "spreadsheet-info"
       [el "h4" "" [Text (SpreadsheetInfo.title spreadsheet)];
        el "p" "" [Text (show_nat (List.length (SpreadsheetInfo.sheets spreadsheet)));
                   Text " sheet(s)"]]].

(** Lines 219-226. *)
Definition sheetButton (s : State) (sheet : Sheet.t) : Node :=
  button
    ("sheet-button " ++
     (if String.eqb (selectedSheet s) (Sheet.title sheet)
      then "selected" else ""))
    (OnSheet (Sheet.title sheet)) (isLoading s)
    [Text (Sheet.title sheet)].

(** Lines 252-258. *)
Definition thead (sheetData : SheetData.t) : Node :=
  el "thead" ""
    [el "tr" ""
       (mapi (fun header _ => el "th" "" [Text header])
             (SheetData.headers sheetData))].

(** Lines 259-267. *)
Definition tbody (sheetData : SheetData.t) : Node :=
  el "tbody" ""
    (mapi (fun row _ =>
             el "tr" ""
               (mapi (fun _ colIndex =>
                        el "td" "" [Text (or_else (nth_error row colIndex) "")])
                     (SheetData.headers sheetData)))
          (firstn 5 (SheetData.data sheetData))).

(** Lines 269-271. *)
Definition tableNote (sheetData : SheetData.t) : Node :=
  el "p" "table-note"
    [Text "Showing first 5 rows of ";
     Text (show_nat (List.length (SheetData.data sheetData)));
     Text " total rows"].

(** Lines 250-272. *)
Definition tableContainer (sheetData : SheetData.t) : Node :=
  div "table-container"
    (el "table" "data-table" [thead sheetData; tbody sheetData]
     :: when (5 <? List.length (SheetData.data sheetData))%nat
             (tableNote sheetData)).

(** Lines 243-274. *)
Definition dataPreview (sheetData : SheetData.t) : Node :=
  div "data-preview"
    (div "data-summary"
       [el "p" "" [Text "Headers: ";
                   Text (show_nat (List.length (SheetData.headers sheetData)))];
        el "p" "" [Text "Rows: ";
                   Text (show_nat (List.length (SheetData.data sheetData)))]]
     :: when (0 <? List.length (SheetData.headers sheetData))%nat
             (tableContainer sheetData)).

(** Lines 234-275. *)
Definition previewSection (s : State) (sheetData : SheetData.t) : Node :=
  div "section"
    [div "section-header"
       [el "h3" "" [Text "Data Preview: ";
                    Text (SheetData.sheet_name sheetData)];
        button "send-button" OnSend (isLoading s)
          [icon "Database" ""; Text "Send to Backend"]];
     dataPreview sheetData].

(** Lines 179-211. *)
Definition spreadsheetsSection (s : State) : Node :=
  div "section"
    [div "section-header"
       [el "h3" "" [Text "Your Spreadsheets"];
        button "refresh-button" OnRefresh (isLoading s)
          [icon "RefreshCw" (if isLoading s then "spin" else "");
           Text "Refresh"]];
     if (0 <? List.length (spreadsheets s))%nat
     then div "spreadsheets-grid" (map (spreadsheetCard s) (spreadsheets s))
     else div "empty-state" [el "p" "" [Text "No spreadsheets found"]]].

(** Lines 214-230. *)
Definition sheetSelection (s : State) : list Node :=
  match selectedSpreadsheet s with
  | None => []
  | Some sel =>
      [div "section"
         [el "h3" "" [Text "Select Sheet from "; Text dquote;
                      Text (SpreadsheetInfo.title sel); Text dquote];
          div "sheets-list"
            (map (sheetButton s) (SpreadsheetInfo.sheets sel))]]
  end.

(** Lines 163-278. *)
Definition authenticated (s : State) : Node :=
  div "integration-container"
    ([div "header"
        [div "header-content"
           [icon "FileSpreadsheet" "";
            el "h2" "" [Text "Google Sheets Integration"]];
         button "logout-button" OnLogout false
           [icon "LogOut" ""; Text "Logout"]]]
     ++ errorBanner s
     ++ [spreadsheetsSection s]
     ++ sheetSelection s
     ++ match sheetData s with
        | Some d => [previewSection s d]
        | None => []
        end)%list.

(** Line 131. *)
Definition render (s : State) : Node :=
  if negb (isAuthenticated s) then unauthenticated s else authenticated s.

(** The handler an [onClick] runs, closed over the rendered state. *)
Definition handler (s : State) (a : Action) : Proc unit :=
  match a with
  | OnLogin => handleLogin
  | OnLogout => handleLogout
  | OnRefresh => loadSpreadsheets
  | OnSpreadsheet spreadsheet => handleSpreadsheetSelect spreadsheet
  | OnSheet title => handleSheetSelect s title
  | OnSend => sendToBackend s
  end.

End View.

(** The click handlers a user can fire in a view: those of the elements
    that are not disabled. *)
Fixpoint clickable (n : Node) : list Action :=
  match n with
  | Text _ => []
  | Elem _ _ onClick disabled children =>
      (match onClick with
       | Some a => if disabled then [] else [a]
       | None => []
       end ++ flat_map clickable children)%list
  end.

(** Whether an element of the given class occurs in a view. *)
Fixpoint occurs (className : string) (n : Node) : bool :=
  match n with
  | Text _ => false
  | Elem _ cls _ _ children =>
      String.eqb cls className || existsb (occurs className) children
  end.

(* ================================================================== *)
(** ** The event loop *)

(** One turn of the event loop: the user clicks an enabled control of the
    current view, or one in-flight promise settles and the function parked
    on it resumes. Nothing happens on a page that is being left. *)
Inductive step : World -> World -> Prop :=
| step_click (w : World) (a : Action) :
    navigated w = None ->
    In a (clickable (View.render (state w))) ->
    step w (launch (View.handler (state w) a) w)
| step_settle (w : World) (before after : list Suspended)
              (p : Promise) (k : Settled (value p) -> Proc unit)
              (r : Settled (value p)) :
    navigated w = None ->
    inflight w = (before ++ suspend p k :: after)%list ->
    step w (launch (k r) (with_inflight (before ++ after)%list w)).

Definition freshPage (loc : Location) : World :=
  {| state := initialState; location := loc; navigated := None;
     console := []; alerts := []; issued := []; inflight := [] |}.

(** The page right after mounting at address [loc]. *)
Definition mounted (loc : Location) : World :=
  GoogleSheetsIntegration.useEffect (freshPage loc).

Definition reachable (w : World) : Prop :=
  exists loc, clos_refl_trans_1n World step (mounted loc) w.

(* ================================================================== *)
(** * Vocabulary of the properties, and sample data *)

(** ** Requests of the client *)

Definition statusRequest : Promise :=
  axios_get AuthStatusBody (API_BASE_URL ++ "/auth/status").

(** What the session-status request amounts to: the response's boolean,
    or [false] when the request failed. *)
Definition statusAnswer (r : Settled (value statusRequest)) : bool :=
  match r with
  | Fulfilled response => authenticated (data response)
  | Rejected _ => false
  end.

Definition loginRequest : Promise :=
  axios_get AuthLoginBody (API_BASE_URL ++ "/auth/login").

Definition logoutRequest : Promise :=
  axios_post EmptyBody (API_BASE_URL ++ "/auth/logout").

Definition spreadsheetsRequest : Promise :=
  axios_get SpreadsheetsBody (API_BASE_URL ++ "/spreadsheets").

(** The URL handed to [axios.get] for a sheet whose name can be encoded,
    and the request made with it. *)
Definition sheetURL (spreadsheetId sheetName : string) : string :=
  API_BASE_URL ++ "/spreadsheet/" ++ spreadsheetId ++ "/sheet/"
    ++ percentEncode sheetName.

Definition sheetRequest (spreadsheetId sheetName : string) : Promise :=
  axios_get SheetDataBody (sheetURL spreadsheetId sheetName).

(** ** Turns of the event loop, as functions *)

(** The turns of [step], as a function: a click, or the settling of the
    [i]-th in-flight promise as [net] answers it. *)
Inductive Event : Type :=
| Click (a : Action)
| Settle (i : nat) (net : Network).

Definition click (a : Action) (w : World) : World :=
  launch (View.handler (state w) a) w.

Definition settle (net : Network) (i : nat) (w : World) : World :=
  match nth_error (inflight w) i with
  | Some (suspend p k) =>
      launch (k (net p))
        (with_inflight (firstn i (inflight w) ++ skipn (S i) (inflight w))%list w)
  | None => w
  end.

Definition fire (e : Event) (w : World) : World :=
  match e with
  | Click a => click a w
  | Settle i net => settle net i w
  end.

Definition enabled (e : Event) (w : World) : Prop :=
  navigated w = None /\
  match e with
  | Click a => In a (clickable (View.render (state w)))
  | Settle i _ => (i < List.length (inflight w))%nat
  end.

(** Every event enabled in its turn. *)
Fixpoint playable (es : list Event) (w : World) : Prop :=
  match es with
  | [] => True
  | e :: rest => enabled e w /\ playable rest (fire e w)
  end.

Definition play (es : list Event) (w : World) : World :=
  fold_left (fun w e => fire e w) es w.

Ltac turn :=
  cbn [playable]; split;
  [ split; [ vm_compute; reflexivity | vm_compute; auto 10 ] | ].

(** ** Reading a view *)

(** The sheets a user can pick: those of the selected spreadsheet. *)
Definition sheetActions (s : State) : list Action :=
  match selectedSpreadsheet s with
  | Some sel =>
      map (fun sheet => OnSheet (Sheet.title sheet)) (SpreadsheetInfo.sheets sel)
  | None => []
  end.

(** Selection, refresh and send: the actions meant to be out of reach
    while the loading flag is up. *)
Definition selectionRefreshOrSend (a : Action) : bool :=
  match a with
  | OnSpreadsheet _ | OnSheet _ | OnRefresh | OnSend => true
  | OnLogin | OnLogout => false
  end.

Definition childrenOf (n : Node) : list Node :=
  match n with
  | Text _ => []
  | Elem _ _ _ _ children => children
  end.

(** The text a reader sees in an element. *)
Fixpoint textContent (n : Node) : string :=
  match n with
  | Text s => s
  | Elem _ _ _ _ children => String.concat "" (map textContent children)
  end.

(** The cells of a table section, row by row. *)
Definition cellTexts (section : Node) : list (list string) :=
  map (fun tr => map textContent (childrenOf tr)) (childrenOf section).

(** A row as the table shows it under [n] headers: cut after [n] cells,
    padded with empty cells up to [n]. *)
Definition fitted (n : nat) (row : list string) : list string :=
  (firstn n row ++ repeat "" (n - List.length row))%list.

(** ** States the properties speak of *)

(** The state after a logout that went through, and after one that did
    not. *)
Definition loggedOut (s : State) : State :=
  {| isAuthenticated := false; isLoading := isLoading s; spreadsheets := [];
     selectedSpreadsheet := None; selectedSheet := ""; sheetData := None;
     error := error s |}.

Definition logoutFailed (s : State) : State :=
  {| isAuthenticated := isAuthenticated s; isLoading := isLoading s;
     spreadsheets := spreadsheets s;
     selectedSpreadsheet := selectedSpreadsheet s;
     selectedSheet := selectedSheet s; sheetData := sheetData s;
     error := "Failed to logout" |}.

(** A preview is only held together with a selected spreadsheet and a
    sheet name. *)
Definition previewInvariant (s : State) : Prop :=
  sheetData s <> None ->
  selectedSpreadsheet s <> None /\ selectedSheet s <> "".

(** The address once its query has been removed. *)
Definition stripped (loc : Location) : Location :=
  {| pathname := pathname loc; search := [] |}.

Definition defaultAuthError : string := "Authentication failed".

(** ** Reading an encoded segment *)






(** ** The path the HTTP client requests *)








(** ** Sample data *)

Definition budget : SpreadsheetInfo.t :=
  SpreadsheetInfo.mk "1AbC" "Budget"
    [Sheet.mk 0 "Sales Q1" 0 "GRID"; Sheet.mk 17 "Costs" 1 "GRID"].

Definition inventory : SpreadsheetInfo.t :=
  SpreadsheetInfo.mk "2XyZ" "Inventory" [Sheet.mk 0 "Stock" 0 "GRID"].

Definition salesQ1 : SheetData.t :=
  SheetData.mk "1AbC" "Sales Q1" [["north"; "10"]; ["south"; "12"]]
    ["region"; "units"].


Definition threeColumns : SheetData.t :=
  SheetData.mk "1AbC" "Sheet1" [["1"; "2"]] ["A"; "B"; "C"].

(** Six rows under no header at all. *)
Definition headless : SheetData.t :=
  SheetData.mk "1AbC" "Notes" [["a"]; ["b"]; ["c"]; ["d"]; ["e"]; ["f"]] [].

Definition sevenRows : SheetData.t :=
  SheetData.mk "1AbC" "Log"
    [["r1"; "x"; "extra"]; ["r2"]; ["r3"; "y"]; ["r4"; "z"]; ["r5"; "u"];
     ["r6"; "v"]; ["r7"; "w"]]
    ["id"; "value"].

(** Six rows of one cell under two headers. *)
Definition sixShortRows : SheetData.t :=
  SheetData.mk "1AbC" "Log" [["r1"]; ["r2"]; ["r3"]; ["r4"]; ["r5"]; ["r6"]]
    ["id"; "value"].

(** A backend that cannot be reached. *)
Definition offline : Network :=
  fun p => Rejected (mkError "Network Error").

(** A backend with a live session that serves the sample data. *)
Definition sampleBody (sh : Shape) : body sh :=
  match sh with
  | AuthStatusBody => {| authenticated := true |}
  | AuthLoginBody => {| auth_url := "https://accounts.google.com/o/oauth2/auth" |}
  | EmptyBody => tt
  | SpreadsheetsBody => [budget; inventory]
  | SheetDataBody => salesQ1
  end.

Definition backend : Network :=
  fun p =>
    match p return Settled (value p) with
    | axios_get sh _ | axios_post sh _ => Fulfilled {| data := sampleBody sh |}
    | timer _ => Fulfilled tt
    end.

Definition home : Location := {| pathname := "/"; search := [] |}.

(** Authenticated, spreadsheet list loaded, nothing selected. *)
Definition listLoaded : State :=
  {| isAuthenticated := true; isLoading := false;
     spreadsheets := [budget; inventory]; selectedSpreadsheet := None;
     selectedSheet := ""; sheetData := None; error := "" |}.

(** A preview is on screen under the banner of an earlier failure. *)
Definition afterFailure : State :=
  {| isAuthenticated := true; isLoading := false;
     spreadsheets := [budget; inventory]; selectedSpreadsheet := Some budget;
     selectedSheet := "Sales Q1"; sheetData := Some salesQ1;
     error := "Failed to logout" |}.

Definition pageWith (s : State) : World :=
  {| state := s; location := {| pathname := "/"; search := [] |};
     navigated := None; console := []; alerts := []; issued := [];
     inflight := [] |}.

(** List loaded, then Refresh clicked: loading, with the cards on screen. *)
Definition refreshingTrace : list Event :=
  [Settle 0 backend; Settle 0 backend; Click OnRefresh].

(** Budget selected, its sheet [Sales Q1] requested, and Inventory selected
    while that request is in flight; then the response arrives. *)
Definition staleTrace : list Event :=
  [Settle 0 backend; Settle 0 backend; Click (OnSpreadsheet budget);
   Click (OnSheet "Sales Q1"); Click (OnSpreadsheet inventory);
   Settle 0 backend].

(** ** Effects of a call *)

(** What a call of an API method does to the page: one request goes out,
    one console line is written when it failed, nothing else changes. *)
Definition apiEffect (net : Network) (request : Promise) (label : string)
  (w w' : World) : Prop :=
  state w' = state w /\ location w' = location w
  /\ navigated w' = navigated w /\ alerts w' = alerts w
  /\ inflight w' = inflight w
  /\ issued w' = (issued w ++ [request])%list
  /\ console w' = (console w
                   ++ match net request with
                      | Fulfilled _ => []
                      | Rejected _ => [label]
                      end)%list.

(** What a call does that fails before any request is made: one console
    line is written, nothing else changes. *)
Definition apiRefusal (label : string) (w w' : World) : Prop :=
  state w' = state w /\ location w' = location w
  /\ navigated w' = navigated w /\ alerts w' = alerts w
  /\ inflight w' = inflight w
  /\ issued w' = issued w
  /\ console w' = (console w ++ [label])%list.

(** A backend that cannot be reached, next to a timer that works. *)
Definition timerOnly : Network :=
  fun p =>
    match p return Settled (value p) with
    | timer _ => Fulfilled tt
    | _ => Rejected (mkError "Network Error")
    end.

(** Addresses the page can be opened at. *)
Definition returnedOk : Location :=
  {| pathname := "/app"; search := [("auth", "success")] |}.

Definition unrelatedQuery : Location :=
  {| pathname := "/app"; search := [("auth", "pending"); ("tab", "2")] |}.

(** ** Turn by turn *)

(** Running a list of commands, on the page and on the state. *)
Definition runCmds (cmds : list Cmd) (w : World) : World :=
  fold_left (fun w c => exec c w) cmds w.

Definition updates (cmds : list Cmd) (s : State) : State :=
  fold_left (fun s c => update c s) cmds s.

(** [Throughout Q pre t]: in every turn that [t] can take part in, the
    commands run in that turn and the promise it parks on, if any, satisfy
    [Q]; [pre] holds the commands of the current turn already run. *)
Inductive Throughout (Q : list Cmd -> option Promise -> Prop)
  : list Cmd -> Proc unit -> Prop :=
| throughout_return (pre : list Cmd) (a : unit) :
    Q pre None -> Throughout Q pre (Return a)
| throughout_throw (pre : list Cmd) (e : Error) :
    Q pre None -> Throughout Q pre (Throw e)
| throughout_do (pre : list Cmd) (c : Cmd) (k : Proc unit) :
    Throughout Q (pre ++ [c])%list k -> Throughout Q pre (Do c k)
| throughout_await (pre : list Cmd) (p : Promise)
    (k : Settled (value p) -> Proc unit) :
    Q pre (Some p) ->
    (forall r, Throughout Q [] (k r)) ->
    Throughout Q pre (Await p k).

(** A parked function all of whose later turns satisfy [Q]. *)
Definition tame (Q : list Cmd -> option Promise -> Prop) (e : Suspended)
  : Prop :=
  forall r, Throughout Q [] (resume e r).

(** A page that satisfies [I] and has only tame functions in flight. *)
Definition Kept (Q : list Cmd -> option Promise -> Prop) (I : World -> Prop)
  (w : World) : Prop :=
  I w /\ Forall (tame Q) (inflight w).



(** A sheet name is only held together with a selected spreadsheet. *)
Definition sheetUnderSpreadsheet (s : State) : Prop :=
  selectedSheet s <> "" -> selectedSpreadsheet s <> None.


Definition keepsSheetUnderSpreadsheet (cmds : list Cmd)
  (parked : option Promise) : Prop :=
  forall s, sheetUnderSpreadsheet s -> sheetUnderSpreadsheet (updates cmds s).

Ltac walk tacQ :=
  cbn; unfold do_;
  lazymatch goal with
  | |- Throughout _ _ (Return _) => apply throughout_return; tacQ
  | |- Throughout _ _ (Throw _) => apply throughout_throw; tacQ
  | |- Throughout _ _ (Do _ _) => apply throughout_do; walk tacQ
  | |- Throughout _ _ (Await _ _) =>
      apply throughout_await; [tacQ | intros [?|?]; walk tacQ]
  | |- Throughout _ _ (if ?b then _ else _) => destruct b; walk tacQ
  | |- Throughout _ _ (match ?x with _ => _ end) => destruct x; walk tacQ
  | |- Throughout _ _ ?t =>
      match t with
      | context [if ?b then _ else _] => destruct b
      | context [googleSheetsAPI.getSheetData _ ?name] =>
          unfold googleSheetsAPI.getSheetData, encodeURIComponent;
          destruct (wellFormed name)
      end;
      walk tacQ
  end.

Ltac keepsSheet :=
  try exact Logic.I;
  let s := fresh "s" in
  let Hs := fresh "Hs" in
  intros s Hs; unfold sheetUnderSpreadsheet in *; cbn in *;
  first
    [ exact Hs
    | intros _; discriminate
    | let H := fresh "H" in intros H; exfalso; apply H; reflexivity ].

(** ** The loading flag and the requests in flight *)









(** Budget selected and its sheet [Sales Q1] requested. *)
Definition sheetRequestedTrace : list Event :=
  [Settle 0 backend; Settle 0 backend; Click (OnSpreadsheet budget);
   Click (OnSheet "Sales Q1")].

(** ** The texts of the banner *)

(** Nothing, the six messages of the handlers, and the message the page
    was opened with (or its default). *)
Definition bannersOf (loc : Location) : list string :=
  [""; "Failed to initiate Google login"; "Failed to logout";
   "Failed to load spreadsheets"; "Failed to load sheet data";
   "Failed to send data to backend";
   or_else (get (search loc) "message") "Authentication failed"].

Definition setsKnownBanner (loc : Location) (cmds : list Cmd)
  (parked : option Promise) : Prop :=
  forall s, In (error s) (bannersOf loc) ->
            In (error (updates cmds s)) (bannersOf loc).

Ltac knownBanner :=
  let s := fresh "s" in
  let Hs := fresh "Hs" in
  intros s Hs; cbn in *; first [exact Hs | auto 10].

(** Opened after a refused consent. *)
Definition returnedDenied : Location :=
  {| pathname := "/app";
     search := [("auth", "error"); ("message", "access_denied")] |}.

(** ** Sections of the view *)

Definition isSome {A : Type} (x : option A) : bool :=
  match x with Some _ => true | None => false end.

Definition isEmpty {A : Type} (l : list A) : bool :=
  match l with [] => true | _ :: _ => false end.

Ltac split_cases :=
  repeat match goal with
         | |- context [if ?b then _ else _] => destruct b
         | |- context [match ?x with Some _ => _ | None => _ end] => destruct x
         end;
  cbn.

(** Authenticated, list loaded, Budget selected, no sheet chosen yet. *)
Definition budgetSelected : State :=
  {| isAuthenticated := true; isLoading := false;
     spreadsheets := [budget; inventory]; selectedSpreadsheet := Some budget;
     selectedSheet := ""; sheetData := None; error := "" |}.

(* ================================================================== *)
(** * Properties *)

(** ** Session status *)

(** C1. [checkAuthStatus] of the API client always fulfils, with the
    response's [authenticated] boolean when the request succeeded and with
    [false] when it failed, and touches no component state. The
    controller's [checkAuthStatus] never throws either and leaves the
    authenticated flag equal to that boolean; this also holds when other
    events ran while the request was in flight, since the function parked
    on the request sets the flag when it resumes. *)
Theorem C1_checkAuthStatus_fail_safe (net : Network) (w : World) :
  snd (run net googleSheetsAPI.checkAuthStatus w)
    = Fulfilled (statusAnswer (net statusRequest))
  /\ state (fst (run net googleSheetsAPI.checkAuthStatus w)) = state w
  /\ snd (run net GoogleSheetsIntegration.checkAuthStatus w) = Fulfilled tt
  /\ isAuthenticated
       (state (fst (run net GoogleSheetsIntegration.checkAuthStatus w)))
     = statusAnswer (net statusRequest)
  /\ exists k,
       launch GoogleSheetsIntegration.checkAuthStatus w
         = with_inflight (inflight w ++ [suspend statusRequest k])%list
             (issue statusRequest w)
       /\ forall r w',
            isAuthenticated (state (launch (k r) w')) = statusAnswer r.
Proof.
  unfold statusAnswer, statusRequest.
  repeat split.
  - cbn. destruct (net (axios_get AuthStatusBody _)); reflexivity.
  - cbn. destruct (net (axios_get AuthStatusBody _)); reflexivity.
  - cbn. destruct (net (axios_get AuthStatusBody _)) as [[[[|]]]|]; cbn.
    + destruct (net (axios_get SpreadsheetsBody _)); reflexivity.
    + reflexivity.
    + reflexivity.
  - cbn. destruct (net (axios_get AuthStatusBody _)) as [[[[|]]]|]; cbn.
    + destruct (net (axios_get SpreadsheetsBody _)); reflexivity.
    + reflexivity.
    + reflexivity.
  - eexists. split.
    + cbn. reflexivity.
    + intros [[[[|]]]|] w'; reflexivity.
Qed.

(** ** Logout *)

(** C2, counterexample. When the logout request fails, the session stays
    authenticated and the spreadsheet list stays: logout does not always
    end in the unauthenticated state. *)
Lemma C2_failed_logout_keeps_state :
  ~ (forall (net : Network) (w : World),
       isAuthenticated (state w) = true ->
       let s' := state (fst (run net GoogleSheetsIntegration.handleLogout w)) in
       isAuthenticated s' = false /\ spreadsheets s' = []
       /\ selectedSpreadsheet s' = None /\ selectedSheet s' = ""
       /\ sheetData s' = None).
Proof.
  intros Hall.
  destruct (Hall offline (pageWith listLoaded) eq_refl) as [H _].
  discriminate H.
Qed.

(** C2 (amended). From every state, when the logout request succeeds the
    logout action ends unauthenticated with the list empty, no spreadsheet,
    no sheet name and no preview (the loading flag and the banner are left
    as they were); when the request fails the state is kept and only the
    banner changes, to [Failed to logout]. The same holds when other events
    ran while the request was in flight: the function parked on the request
    performs exactly these writes when it resumes. *)
Theorem C2_logout_clears_on_success (net : Network) (w : World) :
  state (fst (run net GoogleSheetsIntegration.handleLogout w))
    = match net logoutRequest with
      | Fulfilled _ => loggedOut (state w)
      | Rejected _ => logoutFailed (state w)
      end
  /\ exists k,
       launch GoogleSheetsIntegration.handleLogout w
         = with_inflight (inflight w ++ [suspend logoutRequest k])%list
             (issue logoutRequest w)
       /\ forall r w',
            state (launch (k r) w')
            = match r with
              | Fulfilled _ => loggedOut (state w')
              | Rejected _ => logoutFailed (state w')
              end.
Proof.
  unfold logoutRequest. split.
  - cbn. destruct (net (axios_post EmptyBody _)); reflexivity.
  - eexists. split.
    + cbn. reflexivity.
    + intros [v|e] w'; reflexivity.
Qed.

(** ** Selecting a spreadsheet *)

Lemma existsb_map_false {A B : Type} (f : B -> bool) (g : A -> B)
  (l : list A) :
  (forall x, f (g x) = false) -> existsb f (map g l) = false.
Proof.
  intros H. induction l as [|x l IH]; cbn.
  - reflexivity.
  - rewrite H, IH. reflexivity.
Qed.

Lemma no_preview_in_errorBanner (s : State) :
  existsb (occurs "data-preview") (View.errorBanner s) = false.
Proof.
  unfold View.errorBanner. destruct (nonempty (error s)); reflexivity.
Qed.

Lemma no_preview_in_spreadsheetsSection (s : State) :
  occurs "data-preview" (View.spreadsheetsSection s) = false.
Proof.
  unfold View.spreadsheetsSection.
  destruct (0 <? List.length (spreadsheets s))%nat, (isLoading s);
    try reflexivity;
    cbn; (rewrite existsb_map_false; [reflexivity|]);
    intros sp; reflexivity.
Qed.

Lemma no_preview_in_sheetSelection (s : State) :
  existsb (occurs "data-preview") (View.sheetSelection s) = false.
Proof.
  unfold View.sheetSelection.
  destruct (selectedSpreadsheet s) as [sel|]; [|reflexivity].
  cbn. rewrite existsb_map_false; [reflexivity|].
  intros sh. reflexivity.
Qed.

#[local] Arguments View.errorBanner : simpl never.
#[local] Arguments View.spreadsheetsSection : simpl never.
#[local] Arguments View.sheetSelection : simpl never.

(** Without a preview in the state, no view shows a preview. *)
Lemma no_preview_rendered (s : State) :
  sheetData s = None -> occurs "data-preview" (View.render s) = false.
Proof.
  intros H. unfold View.render.
  destruct (negb (isAuthenticated s)).
  - unfold View.unauthenticated. cbn.
    rewrite existsb_app, no_preview_in_errorBanner.
    destruct (isLoading s); reflexivity.
  - unfold View.authenticated. rewrite H. cbn.
    rewrite existsb_app, no_preview_in_errorBanner. cbn.
    rewrite no_preview_in_spreadsheetsSection. cbn.
    rewrite app_nil_r, no_preview_in_sheetSelection. reflexivity.
Qed.

(** From every state, clicking the card of spreadsheet [B] makes [B] the
    selected spreadsheet and empties the sheet name and the preview in the
    same synchronous step, without issuing any request; the resulting view
    shows no preview, and the next click on a sheet whose name can be
    encoded hands [axios.get] a URL under [B]'s id. *)
Lemma spreadsheet_select_clears (w : World) (B : SpreadsheetInfo.t) :
  let w' := launch (View.handler (state w) (OnSpreadsheet B)) w in
  selectedSpreadsheet (state w') = Some B
  /\ selectedSheet (state w') = ""
  /\ sheetData (state w') = None
  /\ issued w' = issued w
  /\ inflight w' = inflight w
  /\ occurs "data-preview" (View.render (state w')) = false
  /\ forall sheetName,
       wellFormed sheetName = true ->
       issued (launch (View.handler (state w') (OnSheet sheetName)) w')
       = (issued w ++
          [axios_get SheetDataBody
             (API_BASE_URL ++ "/spreadsheet/"
                ++ SpreadsheetInfo.spreadsheet_id B ++ "/sheet/"
                ++ percentEncode sheetName)])%list.
Proof.
  cbn. repeat split.
  - apply no_preview_rendered. reflexivity.
  - intros sheetName Hwf.
    unfold googleSheetsAPI.getSheetData, encodeURIComponent.
    rewrite Hwf. reflexivity.
Qed.

(** ** Traces of the event loop *)

Lemma cut_middle {A : Type} (l1 l2 : list A) (x : A) :
  (firstn (List.length l1) (l1 ++ x :: l2)
   ++ skipn (S (List.length l1)) (l1 ++ x :: l2) = l1 ++ l2)%list.
Proof.
  induction l1 as [|y l1 IH]; cbn.
  - reflexivity.
  - f_equal. exact IH.
Qed.

Lemma fire_step (e : Event) (w : World) : enabled e w -> step w (fire e w).
Proof.
  destruct e as [a|i net]; intros [Hnav H]; cbn.
  - apply step_click; assumption.
  - unfold settle.
    destruct (nth_error (inflight w) i) as [[p k]|] eqn:E.
    + destruct (nth_error_split _ _ E) as (l1 & l2 & Hl & Hlen).
      assert (Hcut : (firstn i (inflight w) ++ skipn (S i) (inflight w)
                      = l1 ++ l2)%list).
      { rewrite Hl, <- Hlen. apply cut_middle. }
      rewrite Hcut. apply step_settle; assumption.
    + apply nth_error_None in E. lia.
Qed.

Lemma play_steps (es : list Event) (w : World) :
  playable es w -> clos_refl_trans_1n World step w (play es w).
Proof.
  revert w. induction es as [|e es IH]; intros w H; cbn.
  - apply rt1n_refl.
  - destruct H as [He Hrest].
    eapply rt1n_trans; [apply fire_step; exact He | apply IH; exact Hrest].
Qed.

Lemma play_reachable (loc : Location) (es : list Event) :
  playable es (mounted loc) -> reachable (play es (mounted loc)).
Proof.
  intros H. exists loc. apply play_steps. exact H.
Qed.

(** Running an asynchronous function in one go is one schedule of the
    event loop: launch it on a page with nothing in flight, then let its
    promises settle one after the other. *)
Lemma run_play (net : Network) (t : Proc unit) (w : World) :
  inflight w = [] ->
  exists n, play (repeat (Settle 0 net) n) (launch t w) = fst (run net t w).
Proof.
  revert w. induction t as [a|e|c k IH|p k IH]; intros w Hw.
  - exists 0%nat. reflexivity.
  - exists 0%nat. reflexivity.
  - destruct (IH (exec c w)) as [n Hn].
    { destruct c; cbn; exact Hw. }
    exists n. exact Hn.
  - destruct (IH (net p) (issue p w)) as [n Hn]; [exact Hw|].
    exists (S n). cbn [repeat play fold_left fire launch run].
    unfold settle. cbn [launch inflight with_inflight issue].
    rewrite Hw. cbn [app nth_error firstn skipn].
    replace (with_inflight [] (with_inflight [suspend p k] (issue p w)))
      with (issue p w).
    + exact Hn.
    + destruct w; cbn in Hw; subst; reflexivity.
Qed.

(** ** What can be clicked *)

Lemma clickable_mapi {A : Type} (f : A -> nat -> Node) (l : list A) (i : nat) :
  (forall x j, clickable (f x j) = []) ->
  flat_map clickable (mapi_from i f l) = [].
Proof.
  intros H. revert i. induction l as [|x l IH]; intros i; cbn.
  - reflexivity.
  - rewrite H, IH. reflexivity.
Qed.

Lemma clickable_thead (d : SheetData.t) : clickable (View.thead d) = [].
Proof.
  unfold View.thead, mapi. cbn.
  rewrite clickable_mapi; reflexivity.
Qed.

Lemma clickable_tbody (d : SheetData.t) : clickable (View.tbody d) = [].
Proof.
  unfold View.tbody, mapi. cbn.
  rewrite clickable_mapi; [reflexivity|].
  intros row j. cbn. rewrite clickable_mapi; reflexivity.
Qed.

#[local] Arguments View.thead : simpl never.
#[local] Arguments View.tbody : simpl never.

Lemma clickable_dataPreview (d : SheetData.t) :
  clickable (View.dataPreview d) = [].
Proof.
  unfold View.dataPreview, View.tableContainer.
  destruct (0 <? List.length (SheetData.headers d))%nat,
           (5 <? List.length (SheetData.data d))%nat;
    cbn; rewrite ?clickable_thead, ?clickable_tbody; reflexivity.
Qed.

Lemma clickable_cards (s : State) (l : list SpreadsheetInfo.t) :
  flat_map clickable (map (View.spreadsheetCard s) l) = map OnSpreadsheet l.
Proof.
  induction l as [|sp l IH]; cbn.
  - reflexivity.
  - rewrite IH. reflexivity.
Qed.

Lemma clickable_sheetButtons (s : State) (l : list Sheet.t) :
  flat_map clickable (map (View.sheetButton s) l)
  = if isLoading s then [] else map (fun sheet => OnSheet (Sheet.title sheet)) l.
Proof.
  induction l as [|sh l IH]; cbn.
  - destruct (isLoading s); reflexivity.
  - rewrite IH. destruct (isLoading s); reflexivity.
Qed.

#[local] Arguments View.dataPreview : simpl never.

Lemma clickable_errorBanner (s : State) :
  flat_map clickable (View.errorBanner s) = [].
Proof.
  unfold View.errorBanner. destruct (nonempty (error s)); reflexivity.
Qed.

Lemma clickable_spreadsheetsSection (s : State) :
  clickable (View.spreadsheetsSection s)
  = ((if isLoading s then [] else [OnRefresh])
     ++ map OnSpreadsheet (spreadsheets s))%list.
Proof.
  unfold View.spreadsheetsSection.
  destruct (spreadsheets s) as [|sp l].
  - destruct (isLoading s); reflexivity.
  - cbn [List.length Nat.ltb Nat.leb].
    destruct (isLoading s); cbn; rewrite clickable_cards, !app_nil_r;
      reflexivity.
Qed.

Lemma clickable_sheetSelection (s : State) :
  flat_map clickable (View.sheetSelection s)
  = if isLoading s then [] else sheetActions s.
Proof.
  unfold View.sheetSelection, sheetActions.
  destruct (selectedSpreadsheet s) as [sel|].
  - cbn. rewrite clickable_sheetButtons, !app_nil_r. reflexivity.
  - destruct (isLoading s); reflexivity.
Qed.

Lemma clickable_previewSection (s : State) (d : SheetData.t) :
  clickable (View.previewSection s d) = if isLoading s then [] else [OnSend].
Proof.
  unfold View.previewSection. cbn.
  rewrite clickable_dataPreview. destruct (isLoading s); reflexivity.
Qed.

#[local] Arguments View.previewSection : simpl never.

(** The complete list of handlers a user can fire in the view of a state. *)
Lemma clickable_render (s : State) :
  clickable (View.render s) =
  if isAuthenticated s then
    (OnLogout
       :: (if isLoading s then [] else [OnRefresh])
       ++ map OnSpreadsheet (spreadsheets s)
       ++ (if isLoading s then [] else sheetActions s)
       ++ match sheetData s with
          | Some _ => if isLoading s then [] else [OnSend]
          | None => []
          end)%list
  else if isLoading s then [] else [OnLogin].
Proof.
  unfold View.render.
  destruct (isAuthenticated s); cbn [negb].
  - unfold View.authenticated. cbn.
    rewrite !flat_map_app, clickable_errorBanner. cbn.
    rewrite flat_map_app, clickable_spreadsheetsSection,
      clickable_sheetSelection.
    rewrite <- !app_assoc. do 4 f_equal.
    destruct (sheetData s) as [d|]; cbn.
    + rewrite clickable_previewSection, app_nil_r. reflexivity.
    + reflexivity.
  - unfold View.unauthenticated. cbn.
    rewrite flat_map_app, clickable_errorBanner.
    destruct (isLoading s); reflexivity.
Qed.

(** ** The loading flag as a gate *)

Lemma refreshing_playable : playable refreshingTrace (mounted home).
Proof. unfold refreshingTrace. do 3 turn. exact I. Qed.

(** C4, counterexample. While a refresh is in flight the spreadsheet cards
    can still be clicked: not every selection action is disabled under
    loading. *)
Lemma C4_cards_clickable_while_loading :
  ~ (forall w : World,
       reachable w -> isLoading (state w) = true ->
       forall a, In a (clickable (View.render (state w))) ->
                 selectionRefreshOrSend a = false).
Proof.
  intros Hall.
  specialize (Hall (play refreshingTrace (mounted home))
                (play_reachable home refreshingTrace refreshing_playable)
                eq_refl (OnSpreadsheet budget)).
  assert (H : In (OnSpreadsheet budget)
                (clickable (View.render
                   (state (play refreshingTrace (mounted home)))))).
  { vm_compute. auto. }
  specialize (Hall H). discriminate Hall.
Qed.

(** C4 (amended). In every state whose loading flag is up, the login,
    refresh, sheet and send buttons are disabled: what can still be clicked
    is exactly the logout button and, in the authenticated view, the
    spreadsheet cards. Of these only logout issues a request; clicking a
    card issues none, so no selection, refresh or send request can start
    while loading is true. *)
Theorem C4_loading_disables_request_buttons (w : World) :
  isLoading (state w) = true ->
  clickable (View.render (state w))
    = (if isAuthenticated (state w)
       then OnLogout :: map OnSpreadsheet (spreadsheets (state w))
       else [])
  /\ forall a, In a (clickable (View.render (state w))) ->
       a <> OnLogout ->
       issued (click a w) = issued w /\ inflight (click a w) = inflight w.
Proof.
  intros Hload.
  assert (Hc : clickable (View.render (state w))
               = if isAuthenticated (state w)
                 then OnLogout :: map OnSpreadsheet (spreadsheets (state w))
                 else []).
  { rewrite clickable_render, Hload.
    destruct (isAuthenticated (state w)); [|reflexivity].
    cbn. destruct (sheetData (state w)); rewrite !app_nil_r; reflexivity. }
  split; [exact Hc|].
  intros a Ha Hne. rewrite Hc in Ha.
  destruct (isAuthenticated (state w)); [|destruct Ha].
  destruct Ha as [Ha|Ha]; [congruence|].
  apply in_map_iff in Ha. destruct Ha as (sp & <- & _).
  split; reflexivity.
Qed.

Lemma C4_loading_witness :
  let w := play refreshingTrace (mounted home) in
  isLoading (state w) = true
  /\ clickable (View.render (state w))
    = [OnLogout; OnSpreadsheet budget; OnSpreadsheet inventory]
  /\ forall a, In a (clickable (View.render (state w))) ->
       a <> OnLogout ->
       issued (click a w) = issued w /\ inflight (click a w) = inflight w.
Proof.
  split; [reflexivity|].
  exact (C4_loading_disables_request_buttons
           (play refreshingTrace (mounted home)) eq_refl).
Defined.

(** ** The preview invariant *)

Lemma stale_playable : playable staleTrace (mounted home).
Proof. unfold staleTrace. do 6 turn. exact I. Qed.

(** C3. Clicking the card of Inventory empties the sheet name and the
    preview at once, but the sheet request issued for Budget is still in
    flight and the cards are not gated by the loading flag: when its
    response arrives the function parked on it stores the preview, and the
    view shows Budget's [Sales Q1] preview under the selected Inventory. *)
Theorem C3_stale_preview_under_other_spreadsheet :
  let selected := play (firstn 5 staleTrace) (mounted home) in
  let w := play staleTrace (mounted home) in
  reachable w
  /\ (selectedSpreadsheet (state selected) = Some inventory
      /\ selectedSheet (state selected) = ""
      /\ sheetData (state selected) = None)
  /\ selectedSpreadsheet (state w) = Some inventory
  /\ sheetData (state w) = Some salesQ1
  /\ SheetData.spreadsheet_id salesQ1 = SpreadsheetInfo.spreadsheet_id budget
  /\ SheetData.spreadsheet_id salesQ1
     <> SpreadsheetInfo.spreadsheet_id inventory
  /\ occurs "data-preview" (View.render (state w)) = true.
Proof.
  split; [apply play_reachable, stale_playable|].
  repeat split. discriminate.
Qed.

(** C6. The invariant fails in a reachable state. The cards are not gated
    by the loading flag, and the function parked on the sheet request
    stores the response whatever is selected by then: after [staleTrace]
    the preview of Budget's [Sales Q1] is held while Inventory is selected
    and the sheet name is empty. *)
Theorem C6_stale_preview_breaks_invariant :
  let w := play staleTrace (mounted home) in
  reachable w
  /\ sheetData (state w) = Some salesQ1
  /\ selectedSpreadsheet (state w) = Some inventory
  /\ selectedSheet (state w) = ""
  /\ ~ previewInvariant (state w).
Proof.
  split; [apply play_reachable, stale_playable|].
  repeat split.
  intros inv. destruct inv as [_ H]; [discriminate|].
  apply H. reflexivity.
Qed.

(** A sheet request that settles before anything else happens keeps the
    invariant, as long as the sheet has a title: every handler run in one
    go preserves it. *)
Lemma previewInvariant_run (net : Network) (w : World) (a : Action) :
  (forall title, a = OnSheet title -> title <> "") ->
  previewInvariant (state w) ->
  previewInvariant (state (fst (run net (View.handler (state w) a) w))).
Proof.
  unfold previewInvariant. intros Htitle Hinv.
  destruct a as [| | |sp|title|]; cbn.
  - destruct (net (axios_get AuthLoginBody _)); cbn; exact Hinv.
  - destruct (net (axios_post EmptyBody _)); cbn; [congruence|exact Hinv].
  - destruct (net (axios_get SpreadsheetsBody _)); cbn; exact Hinv.
  - congruence.
  - unfold GoogleSheetsIntegration.handleSheetSelect.
    destruct (selectedSpreadsheet (state w)) as [sel|] eqn:E; cbn.
    + unfold googleSheetsAPI.getSheetData, encodeURIComponent.
      destruct (wellFormed title); cbn;
        [destruct (net (axios_get SheetDataBody _)); cbn|];
        rewrite ?E; intros _; split; try congruence;
        apply (Htitle title eq_refl).
    + rewrite ?E. exact Hinv.
  - unfold GoogleSheetsIntegration.sendToBackend.
    destruct (sheetData (state w)) as [d|] eqn:E; cbn.
    + destruct (net (timer 1000)); cbn; rewrite ?E; intros _;
        apply Hinv; rewrite ?E; discriminate.
    + rewrite ?E. exact Hinv.
Qed.

(** ** Return from the OAuth provider *)

(** C5, counterexample. The provider redirected with
    [?auth=error&message=]: the message parameter is present and empty, and
    the banner shows the default text instead of it. *)
Lemma C5_empty_message_replaced :
  ~ (forall loc : Location,
       get (search loc) "auth" = Some "error" ->
       error (state (mounted loc))
       = match get (search loc) "message" with
         | Some m => m
         | None => defaultAuthError
         end).
Proof.
  intros Hall.
  specialize (Hall {| pathname := "/";
                       search := [("auth", "error"); ("message", "")] |}
                eq_refl).
  discriminate Hall.
Qed.

Lemma errorBanner_shown (s : State) :
  isAuthenticated s = false -> nonempty (error s) = true ->
  occurs "error-message" (View.render s) = true.
Proof.
  intros Hauth Herr. unfold View.render. rewrite Hauth. cbn [negb].
  unfold View.unauthenticated. cbn.
  rewrite existsb_app. unfold View.errorBanner. rewrite Herr.
  reflexivity.
Qed.

(** C5 (amended). Right after mounting at address [loc]: with
    [auth=success] the authenticated flag is set and the query is removed
    from the address; with [auth=error] the banner shows the [message]
    parameter, or the default text when that parameter is absent or empty,
    and the query is removed as well. Mounting at the rewritten address
    triggers neither outcome again. *)
Theorem C5_oauth_outcome_consumed (loc : Location) :
  (get (search loc) "auth" = Some "success" ->
     isAuthenticated (state (mounted loc)) = true
     /\ error (state (mounted loc)) = ""
     /\ location (mounted loc) = stripped loc)
  /\ (get (search loc) "auth" = Some "error" ->
        isAuthenticated (state (mounted loc)) = false
        /\ error (state (mounted loc))
           = match get (search loc) "message" with
             | Some m => if nonempty m then m else defaultAuthError
             | None => defaultAuthError
             end
        /\ occurs "error-message" (View.render (state (mounted loc))) = true
        /\ location (mounted loc) = stripped loc)
  /\ state (mounted (stripped loc)) = initialState
  /\ location (mounted (stripped loc)) = stripped loc
  /\ get (search (stripped loc)) "auth" = None.
Proof.
  split; [|split; [|repeat split]].
  - intros H. unfold mounted, GoogleSheetsIntegration.useEffect.
    cbn. rewrite H. cbn. repeat split.
  - intros H.
    assert (Hst : state (mounted loc)
                  = update (setError (or_else (get (search loc) "message")
                                        defaultAuthError)) initialState).
    { unfold mounted, GoogleSheetsIntegration.useEffect.
      cbn. rewrite H. reflexivity. }
    assert (Hloc : location (mounted loc) = stripped loc).
    { unfold mounted, GoogleSheetsIntegration.useEffect.
      cbn. rewrite H. reflexivity. }
    rewrite Hst, Hloc.
    repeat split.
    + cbn. destruct (get (search loc) "message") as [[|c m]|]; reflexivity.
    + apply errorBanner_shown; [reflexivity|].
      cbn. destruct (get (search loc) "message") as [[|c m]|]; reflexivity.
Qed.

Lemma C5_oauth_witness :
  let ok := {| pathname := "/app"; search := [("auth", "success")] |} in
  let denied := {| pathname := "/app";
                   search := [("auth", "error"); ("message", "access_denied")] |} in
  (get (search ok) "auth" = Some "success"
   /\ isAuthenticated (state (mounted ok)) = true
   /\ error (state (mounted ok)) = ""
   /\ location (mounted ok) = {| pathname := "/app"; search := [] |})
  /\ (get (search denied) "auth" = Some "error"
      /\ isAuthenticated (state (mounted denied)) = false
      /\ error (state (mounted denied)) = "access_denied"
      /\ occurs "error-message" (View.render (state (mounted denied))) = true
      /\ location (mounted denied) = {| pathname := "/app"; search := [] |}).
Proof.
  split.
  - split; [reflexivity|].
    exact (proj1 (C5_oauth_outcome_consumed
                    {| pathname := "/app"; search := [("auth", "success")] |})
             eq_refl).
  - split; [reflexivity|].
    exact (proj1 (proj2 (C5_oauth_outcome_consumed
                    {| pathname := "/app";
                       search := [("auth", "error");
                                  ("message", "access_denied")] |}))
             eq_refl).
Defined.

(** ** Percent-encoding of sheet names *)
























(** ** The preview table *)

Lemma mapi_from_const_map {A B C : Type} (g : A -> C) (f : B -> nat -> A)
  (l : list B) (i : nat) :
  map g (mapi_from i f l) = mapi_from i (fun x j => g (f x j)) l.
Proof.
  revert i. induction l as [|x l IH]; intros i; cbn.
  - reflexivity.
  - rewrite IH. reflexivity.
Qed.

Lemma mapi_from_ignore_index {A B : Type} (f : A -> B) (l : list A) (i : nat) :
  mapi_from i (fun x _ => f x) l = map f l.
Proof.
  revert i. induction l as [|x l IH]; intros i; cbn.
  - reflexivity.
  - rewrite IH. reflexivity.
Qed.

Lemma mapi_from_ignore_elem {A B : Type} (f : nat -> B) (l : list A) (i : nat) :
  mapi_from i (fun _ j => f j) l = map f (seq i (List.length l)).
Proof.
  revert i. induction l as [|x l IH]; intros i; cbn.
  - reflexivity.
  - rewrite IH. reflexivity.
Qed.

Lemma cell_or_else (row : list string) (j : nat) :
  or_else (nth_error row j) "" = nth j row "".
Proof.
  revert j. induction row as [|c row IH]; intros [|j]; cbn; try reflexivity.
  - destruct c; reflexivity.
  - apply IH.
Qed.

Lemma cells_fitted (row : list string) (n i : nat) :
  map (fun j => nth (j - i) row "") (seq i n) = fitted n row.
Proof.
  unfold fitted. revert i row.
  induction n as [|n IH]; intros i row; cbn [seq map].
  - reflexivity.
  - rewrite Nat.sub_diag.
    destruct row as [|c row].
    + cbn. f_equal.
      specialize (IH (S i) []).
      rewrite firstn_nil in IH. cbn [List.length app] in IH.
      rewrite Nat.sub_0_r in IH.
      rewrite <- IH. apply map_ext_in. intros j Hj.
      destruct (j - i)%nat, (j - S i)%nat; reflexivity.
    + cbn. f_equal.
      rewrite <- (IH (S i) row). apply map_ext_in. intros j Hj.
      apply in_seq in Hj.
      replace (j - i)%nat with (S (j - S i)) by lia. reflexivity.
Qed.

(** The body of the table, read back: the first five data rows, each
    fitted to the number of headers. *)
Lemma tbody_cells (d : SheetData.t) :
  cellTexts (View.tbody d)
  = map (fitted (List.length (SheetData.headers d)))
        (firstn 5 (SheetData.data d)).
Proof.
  unfold cellTexts, View.tbody, mapi. cbn [childrenOf el].
  rewrite mapi_from_const_map, mapi_from_ignore_index.
  apply map_ext. intros row. cbn [childrenOf el].
  rewrite mapi_from_const_map. cbn [textContent el map String.concat].
  rewrite mapi_from_ignore_elem.
  rewrite <- (cells_fitted row _ 0).
  apply map_ext. intros j. rewrite Nat.sub_0_r. apply cell_or_else.
Qed.

Lemma occurs_mapi_false {A : Type} (c : string) (f : A -> nat -> Node)
  (l : list A) (i : nat) :
  (forall x j, occurs c (f x j) = false) ->
  existsb (occurs c) (mapi_from i f l) = false.
Proof.
  intros H. revert i. induction l as [|x l IH]; intros i; cbn.
  - reflexivity.
  - rewrite H, IH. reflexivity.
Qed.

Lemma occurs_plain (c tag : string) (children : list Node) :
  String.eqb "" c = false ->
  occurs c (el tag "" children) = existsb (occurs c) children.
Proof.
  intros Hc. unfold el. cbn [occurs]. rewrite Hc. reflexivity.
Qed.

Lemma no_class_in_table (c : string) (d : SheetData.t) :
  String.eqb "" c = false ->
  occurs c (View.thead d) = false /\ occurs c (View.tbody d) = false.
Proof.
  intros Hc. unfold View.thead, View.tbody, mapi. split.
  - rewrite occurs_plain by exact Hc. cbn [existsb].
    rewrite occurs_plain by exact Hc.
    rewrite occurs_mapi_false; [reflexivity|].
    intros x j. rewrite occurs_plain by exact Hc. reflexivity.
  - rewrite occurs_plain by exact Hc.
    rewrite occurs_mapi_false; [reflexivity|].
    intros row j. rewrite occurs_plain by exact Hc.
    rewrite occurs_mapi_false; [reflexivity|].
    intros x k. rewrite occurs_plain by exact Hc. reflexivity.
Qed.

(** The table is rendered exactly for a preview with a header, and the
    note exactly when, in addition, there are more than five rows. *)
Lemma table_and_note_rendered (d : SheetData.t) :
  occurs "data-table" (View.dataPreview d)
    = (0 <? List.length (SheetData.headers d))%nat
  /\ occurs "table-note" (View.dataPreview d)
    = ((0 <? List.length (SheetData.headers d))%nat
       && (5 <? List.length (SheetData.data d))%nat).
Proof.
  destruct (no_class_in_table "data-table" d eq_refl) as [Hh1 Hb1].
  destruct (no_class_in_table "table-note" d eq_refl) as [Hh2 Hb2].
  unfold View.dataPreview, View.tableContainer.
  destruct (0 <? List.length (SheetData.headers d))%nat,
           (5 <? List.length (SheetData.data d))%nat;
    cbn; rewrite ?Hh1, ?Hb1, ?Hh2, ?Hb2; split; reflexivity.
Qed.

Lemma fitted_length (n : nat) (row : list string) :
  List.length (fitted n row) = n.
Proof.
  unfold fitted. rewrite length_app, length_firstn, repeat_length. lia.
Qed.

Lemma fitted_short (n : nat) (row : list string) :
  (List.length row <= n)%nat ->
  fitted n row = (row ++ repeat "" (n - List.length row))%list.
Proof.
  intros H. unfold fitted. rewrite firstn_all2 by exact H. reflexivity.
Qed.

Lemma fitted_long (n : nat) (row : list string) :
  (n <= List.length row)%nat -> fitted n row = firstn n row.
Proof.
  intros H. unfold fitted.
  replace (n - List.length row)%nat with 0%nat by lia.
  apply app_nil_r.
Qed.

Lemma tbody_row (d : SheetData.t) (i : nat) (row : list string) :
  nth_error (SheetData.data d) i = Some row -> (i < 5)%nat ->
  nth_error (cellTexts (View.tbody d)) i
  = Some (fitted (List.length (SheetData.headers d)) row).
Proof.
  intros Hrow Hi. rewrite tbody_cells, nth_error_map.
  rewrite nth_error_firstn.
  destruct (Nat.ltb_spec i 5) as [_|Hge]; [|lia].
  rewrite Hrow. reflexivity.
Qed.

(** C8, counterexample. The table shows five rows at most: a sixth row,
    short or not, is not rendered. *)
Lemma C8_sixth_row_not_shown :
  ~ (forall (d : SheetData.t) (row : list string),
       In row (SheetData.data d) ->
       (List.length row < List.length (SheetData.headers d))%nat ->
       In (row ++ repeat ""
             (List.length (SheetData.headers d) - List.length row))%list
          (cellTexts (View.tbody d))).
Proof.
  intros Hall.
  assert (Hin : In ["r6"] (SheetData.data sixShortRows)).
  { cbn. auto 10. }
  specialize (Hall sixShortRows ["r6"] Hin).
  cbn in Hall.
  assert (Hlt : (1 < 2)%nat) by lia.
  specialize (Hall Hlt).
  repeat destruct Hall as [Hall|Hall]; try discriminate Hall.
  exact Hall.
Qed.

(** C8 (amended). A data row shorter than the headers, among the first
    five data rows (the rows the table shows), is rendered in its place with
    its own cells followed by empty cells up to the number of headers; the
    table is rendered, and it has as many rows as the slice it shows,
    whatever their lengths. Rendering is a total function: nothing
    throws. *)
Theorem C8_short_rows_padded (d : SheetData.t) (i : nat) (row : list string) :
  nth_error (SheetData.data d) i = Some row ->
  (i < 5)%nat ->
  (List.length row < List.length (SheetData.headers d))%nat ->
  occurs "data-table" (View.dataPreview d) = true
  /\ nth_error (cellTexts (View.tbody d)) i
     = Some (row ++ repeat ""
               (List.length (SheetData.headers d) - List.length row))%list
  /\ List.length (cellTexts (View.tbody d))
     = List.length (firstn 5 (SheetData.data d)).
Proof.
  intros Hrow Hi Hshort. repeat split.
  - rewrite (proj1 (table_and_note_rendered d)).
    apply Nat.ltb_lt. lia.
  - rewrite (tbody_row d i row Hrow Hi).
    rewrite fitted_short by lia. reflexivity.
  - rewrite tbody_cells, length_map. reflexivity.
Qed.

Lemma C8_short_rows_witness :
  nth_error (SheetData.data threeColumns) 0 = Some ["1"; "2"]
  /\ occurs "data-table" (View.dataPreview threeColumns) = true
  /\ nth_error (cellTexts (View.tbody threeColumns)) 0 = Some ["1"; "2"; ""]
  /\ List.length (cellTexts (View.tbody threeColumns)) = 1%nat.
Proof.
  split; [reflexivity|].
  apply (C8_short_rows_padded threeColumns 0 ["1"; "2"]).
  - reflexivity.
  - cbn. lia.
  - cbn. lia.
Defined.

(** C9, counterexample. A preview without headers has more than five rows
    and still no note: the table and its note are only rendered under at
    least one header. *)
Lemma C9_no_header_no_note :
  ~ (forall d : SheetData.t,
       occurs "table-note" (View.dataPreview d) = true
       <-> (5 < List.length (SheetData.data d))%nat).
Proof.
  intros Hall.
  destruct (Hall headless) as [_ H].
  assert (Hnote : occurs "table-note" (View.dataPreview headless) = true).
  { apply H. cbn. lia. }
  discriminate Hnote.
Qed.

(** C9 (amended). For a preview with at least one header the table is
    rendered; its body shows the first [min 5 n] of the [n] data rows, in
    their order, each with exactly as many cells as there are headers
    (cells beyond the headers dropped, missing ones empty); and the note,
    which spells the total row count, is rendered exactly when [n > 5].
    For a preview without headers neither the table nor the note is
    rendered. *)
Theorem C9_first_five_rows (d : SheetData.t) :
  let n := List.length (SheetData.headers d) in
  (SheetData.headers d <> [] ->
     occurs "data-table" (View.dataPreview d) = true
     /\ cellTexts (View.tbody d) = map (fitted n) (firstn 5 (SheetData.data d))
     /\ List.length (cellTexts (View.tbody d))
        = Nat.min 5 (List.length (SheetData.data d))
     /\ (forall cells, In cells (cellTexts (View.tbody d)) ->
           List.length cells = n)
     /\ (forall i row, nth_error (SheetData.data d) i = Some row ->
           (i < 5)%nat ->
           nth_error (cellTexts (View.tbody d)) i = Some (fitted n row)
           /\ ((n <= List.length row)%nat -> fitted n row = firstn n row))
     /\ (occurs "table-note" (View.dataPreview d) = true
         <-> (5 < List.length (SheetData.data d))%nat)
     /\ textContent (View.tableNote d)
        = "Showing first 5 rows of "
            ++ show_nat (List.length (SheetData.data d)) ++ " total rows")
  /\ (SheetData.headers d = [] ->
        occurs "data-table" (View.dataPreview d) = false
        /\ occurs "table-note" (View.dataPreview d) = false).
Proof.
  intros n. destruct (table_and_note_rendered d) as [Htable Hnote].
  split.
  - intros Hne.
    assert (Hpos : (0 <? n)%nat = true).
    { apply Nat.ltb_lt. subst n.
      destruct (SheetData.headers d); [congruence|cbn; lia]. }
    split; [rewrite Htable; exact Hpos|].
    split; [apply tbody_cells|].
    split; [rewrite tbody_cells, length_map, length_firstn; reflexivity|].
    split.
    { intros cells Hin. rewrite tbody_cells in Hin.
      apply in_map_iff in Hin. destruct Hin as (row & <- & _).
      apply fitted_length. }
    split.
    { intros i row Hrow Hi. split.
      - apply tbody_row; assumption.
      - apply fitted_long. }
    split.
    { rewrite Hnote. fold n. rewrite Hpos. cbn [andb]. apply Nat.ltb_lt. }
    reflexivity.
  - intros Hnil. rewrite Htable, Hnote, Hnil. split; reflexivity.
Qed.

Lemma C9_first_five_rows_witness :
  SheetData.headers sevenRows <> []
  /\ cellTexts (View.tbody sevenRows)
     = [["r1"; "x"]; ["r2"; ""]; ["r3"; "y"]; ["r4"; "z"]; ["r5"; "u"]]
  /\ textContent (View.tableNote sevenRows)
     = "Showing first 5 rows of 7 total rows".
Proof.
  assert (Hne : SheetData.headers sevenRows <> []) by discriminate.
  split; [exact Hne|].
  pose proof (proj1 (C9_first_five_rows sevenRows) Hne) as H.
  split.
  - exact (proj1 (proj2 H)).
  - exact (proj2 (proj2 (proj2 (proj2 (proj2 (proj2 H)))))).
Defined.

(** ** The error banner at the start of an action *)

(** C10. Login, refresh, sheet selection and send-to-backend each empty
    the error banner in the synchronous step that ends with their request
    being issued (sheet selection and send only act, and only issue a
    request, when a spreadsheet, respectively a preview, is held; a sheet
    name with an unpaired surrogate cannot be encoded, and selecting it
    issues no request): when any action other than logout has issued a
    request, the banner is empty. Logout issues its request and leaves the
    banner as it was. *)
Theorem C10_banner_cleared_before_request (w : World) :
  (error (state (click OnLogin w)) = ""
   /\ issued (click OnLogin w) = (issued w ++ [loginRequest])%list)
  /\ (error (state (click OnRefresh w)) = ""
      /\ issued (click OnRefresh w) = (issued w ++ [spreadsheetsRequest])%list)
  /\ (forall title sel,
        selectedSpreadsheet (state w) = Some sel ->
        (wellFormed title = true ->
         error (state (click (OnSheet title) w)) = ""
         /\ issued (click (OnSheet title) w)
            = (issued w
               ++ [sheetRequest (SpreadsheetInfo.spreadsheet_id sel) title])%list)
        /\ (wellFormed title = false ->
            issued (click (OnSheet title) w) = issued w))
  /\ (forall d,
        sheetData (state w) = Some d ->
        error (state (click OnSend w)) = ""
        /\ issued (click OnSend w) = (issued w ++ [timer 1000])%list)
  /\ (forall a, a <> OnLogout -> issued (click a w) <> issued w ->
        error (state (click a w)) = "")
  /\ (error (state (click OnLogout w)) = error (state w)
      /\ issued (click OnLogout w) = (issued w ++ [logoutRequest])%list).
Proof.
  unfold click.
  split; [split; reflexivity|].
  split; [split; reflexivity|].
  split.
  { intros title sel Hsel. cbn.
    unfold GoogleSheetsIntegration.handleSheetSelect,
      googleSheetsAPI.getSheetData, encodeURIComponent.
    rewrite Hsel.
    split; intros Hwf; rewrite Hwf; [split|]; reflexivity. }
  split.
  { intros d Hd. cbn.
    unfold GoogleSheetsIntegration.sendToBackend. rewrite Hd.
    split; reflexivity. }
  split; [|split; reflexivity].
  intros a Hne Hissued.
  destruct a as [| | |sp|title|]; cbn in *.
  - reflexivity.
  - congruence.
  - reflexivity.
  - congruence.
  - unfold GoogleSheetsIntegration.handleSheetSelect,
      googleSheetsAPI.getSheetData, encodeURIComponent in *.
    destruct (selectedSpreadsheet (state w));
      [destruct (wellFormed title); [reflexivity|]|];
      cbn in Hissued; congruence.
  - unfold GoogleSheetsIntegration.sendToBackend in *.
    destruct (sheetData (state w)); [reflexivity|].
    cbn in Hissued. congruence.
Qed.

Lemma C10_banner_witness :
  let w := pageWith afterFailure in
  error (state w) = "Failed to logout"
  /\ (error (state (click (OnSheet "Costs") w)) = ""
      /\ issued (click (OnSheet "Costs") w) = [sheetRequest "1AbC" "Costs"])
  /\ (error (state (click OnSend w)) = ""
      /\ issued (click OnSend w) = [timer 1000])
  /\ error (state (click OnRefresh w)) = "".
Proof.
  pose proof (C10_banner_cleared_before_request (pageWith afterFailure))
    as (_ & _ & Hsheet & Hsend & Hany & _).
  split; [reflexivity|].
  split; [exact (proj1 (Hsheet "Costs" budget eq_refl) eq_refl)|].
  split; [exact (Hsend salesQ1 eq_refl)|].
  apply Hany; [discriminate|].
  vm_compute. discriminate.
Defined.

(* ================================================================== *)
(** * Further properties of the client and the controller *)

(** ** The API client, method by method *)

(** X1. The four methods that can fail hand back the payload of a
    successful response, and replace whatever made the request fail by
    their own fixed message; [getSheetData] answers a sheet name that
    cannot be encoded with that same message, whatever the backend would
    have said. *)
Theorem X1_api_results (net : Network) (w : World)
  (spreadsheetId sheetName : string) :
  snd (run net googleSheetsAPI.initiateLogin w)
    = match net loginRequest with
      | Fulfilled response => Fulfilled (auth_url (data response))
      | Rejected _ => Rejected (mkError "Failed to initiate Google OAuth")
      end
  /\ snd (run net googleSheetsAPI.logout w)
    = match net logoutRequest with
      | Fulfilled _ => Fulfilled tt
      | Rejected _ => Rejected (mkError "Failed to logout")
      end
  /\ snd (run net googleSheetsAPI.getSpreadsheets w)
    = match net spreadsheetsRequest with
      | Fulfilled response => Fulfilled (data response)
      | Rejected _ => Rejected (mkError "Failed to fetch spreadsheets")
      end
  /\ snd (run net (googleSheetsAPI.getSheetData spreadsheetId sheetName) w)
    = (if wellFormed sheetName
       then match net (sheetRequest spreadsheetId sheetName) with
            | Fulfilled response => Fulfilled (data response)
            | Rejected _ => Rejected (mkError "Failed to fetch sheet data")
            end
       else Rejected (mkError "Failed to fetch sheet data")).
Proof.
  unfold loginRequest, logoutRequest, spreadsheetsRequest, sheetRequest.
  split; [|split; [|split]];
    cbn [run bind await try_catch do_ googleSheetsAPI.initiateLogin
      googleSheetsAPI.logout googleSheetsAPI.getSpreadsheets];
    try (destruct (net _); reflexivity).
  unfold googleSheetsAPI.getSheetData, encodeURIComponent.
  destruct (wellFormed sheetName); [|reflexivity].
  cbn. destruct (net _); reflexivity.
Qed.

(** X2. A call of any of the five methods issues exactly one request and
    writes one console line when that request failed; [getSheetData] with a
    sheet name that cannot be encoded issues no request and writes its
    console line. No call changes the component state or the address,
    shows an alert or touches the requests in flight. *)
Theorem X2_api_effects (net : Network) (w : World)
  (spreadsheetId sheetName : string) :
  apiEffect net statusRequest "Error checking auth status:" w
    (fst (run net googleSheetsAPI.checkAuthStatus w))
  /\ apiEffect net loginRequest "Error initiating login:" w
       (fst (run net googleSheetsAPI.initiateLogin w))
  /\ apiEffect net logoutRequest "Error logging out:" w
       (fst (run net googleSheetsAPI.logout w))
  /\ apiEffect net spreadsheetsRequest "Error fetching spreadsheets:" w
       (fst (run net googleSheetsAPI.getSpreadsheets w))
  /\ (if wellFormed sheetName
      then apiEffect net (sheetRequest spreadsheetId sheetName)
             "Error fetching sheet data:" w
             (fst (run net
                     (googleSheetsAPI.getSheetData spreadsheetId sheetName) w))
      else apiRefusal "Error fetching sheet data:" w
             (fst (run net
                     (googleSheetsAPI.getSheetData spreadsheetId sheetName) w))).
Proof.
  unfold statusRequest, loginRequest, logoutRequest, spreadsheetsRequest,
    sheetRequest.
  split; [|split; [|split; [|split]]].
  5: { unfold googleSheetsAPI.getSheetData, encodeURIComponent.
       destruct (wellFormed sheetName);
         [|unfold apiRefusal; cbn; repeat apply conj; reflexivity].
       unfold apiEffect. cbn.
       destruct (net _); cbn; rewrite ?app_nil_r;
         repeat apply conj; reflexivity. }
  all: unfold apiEffect;
    cbn [run bind await try_catch do_ googleSheetsAPI.checkAuthStatus
      googleSheetsAPI.initiateLogin googleSheetsAPI.logout
      googleSheetsAPI.getSpreadsheets];
    destruct (net _); cbn; rewrite ?app_nil_r;
    repeat apply conj; reflexivity.
Qed.

(** ** The handlers, outcome by outcome *)


(** X4. Loading the spreadsheet list: a successful response replaces the
    list wholesale and empties the banner; a failed one keeps the old list
    and sets the banner to [Failed to load spreadsheets]. Either way the
    loading flag ends lowered, and the selected spreadsheet, the sheet name
    and the preview are left as they were, also when the new list no
    longer holds the selected spreadsheet. *)
Theorem X4_loadSpreadsheets_outcomes (net : Network) (w : World) :
  let s := state w in
  snd (run net GoogleSheetsIntegration.loadSpreadsheets w) = Fulfilled tt
  /\ state (fst (run net GoogleSheetsIntegration.loadSpreadsheets w))
     = match net spreadsheetsRequest with
       | Fulfilled response =>
           {| isAuthenticated := isAuthenticated s; isLoading := false;
              spreadsheets := data response;
              selectedSpreadsheet := selectedSpreadsheet s;
              selectedSheet := selectedSheet s; sheetData := sheetData s;
              error := "" |}
       | Rejected _ =>
           {| isAuthenticated := isAuthenticated s; isLoading := false;
              spreadsheets := spreadsheets s;
              selectedSpreadsheet := selectedSpreadsheet s;
              selectedSheet := selectedSheet s; sheetData := sheetData s;
              error := "Failed to load spreadsheets" |}
       end.
Proof.
  unfold spreadsheetsRequest. cbn.
  destruct (net (axios_get SpreadsheetsBody _)); cbn; split; reflexivity.
Qed.

(** X5. Choosing a sheet while a spreadsheet is selected: the sheet name
    is taken over at once; a successful response becomes the preview; a
    failed one sets the banner to [Failed to load sheet data] and keeps the
    preview that was there, now under the new sheet name; so does a sheet
    name that cannot be encoded, for which no request is made. Either way
    the loading flag ends lowered. Without a selected spreadsheet the
    handler does nothing at all. *)
Theorem X5_handleSheetSelect_outcomes
  (net : Network) (w : World) (sheetName : string) :
  let s := state w in
  let result :=
    run net (GoogleSheetsIntegration.handleSheetSelect s sheetName) w in
  match selectedSpreadsheet s with
  | Some sel =>
      let failed :=
        {| isAuthenticated := isAuthenticated s; isLoading := false;
           spreadsheets := spreadsheets s;
           selectedSpreadsheet := Some sel;
           selectedSheet := sheetName; sheetData := sheetData s;
           error := "Failed to load sheet data" |} in
      snd result = Fulfilled tt
      /\ (if wellFormed sheetName
          then
            issued (fst result)
            = (issued w
               ++ [sheetRequest (SpreadsheetInfo.spreadsheet_id sel)
                     sheetName])%list
            /\ state (fst result)
               = match net (sheetRequest (SpreadsheetInfo.spreadsheet_id sel)
                              sheetName) with
                 | Fulfilled response =>
                     {| isAuthenticated := isAuthenticated s;
                        isLoading := false;
                        spreadsheets := spreadsheets s;
                        selectedSpreadsheet := Some sel;
                        selectedSheet := sheetName;
                        sheetData := Some (data response); error := "" |}
                 | Rejected _ => failed
                 end
          else issued (fst result) = issued w /\ state (fst result) = failed)
  | None => result = (w, Fulfilled tt)
  end.
Proof.
  unfold GoogleSheetsIntegration.handleSheetSelect, sheetRequest,
    googleSheetsAPI.getSheetData, encodeURIComponent.
  destruct (selectedSpreadsheet (state w)) as [sel|] eqn:E; [|reflexivity].
  destruct (wellFormed sheetName); cbn;
    [destruct (net (axios_get SheetDataBody _)); cbn|];
    rewrite ?E; repeat split.
Qed.

(** X6. Sending to the backend contacts no backend: with a preview held,
    the only promise awaited is the one-second timer, and once it has
    elapsed the success alert is shown, whether or not the backend can be
    reached. The preview and the selection stay; the banner is emptied and
    the loading flag ends lowered. Without a preview the handler does
    nothing at all. *)
Theorem X6_sendToBackend_sends_nothing (net : Network) (w : World) :
  let s := state w in
  let result := run net (GoogleSheetsIntegration.sendToBackend s) w in
  net (timer 1000) = Fulfilled tt ->
  match sheetData s with
  | Some d =>
      snd result = Fulfilled tt
      /\ issued (fst result) = (issued w ++ [timer 1000])%list
      /\ alerts (fst result)
         = (alerts w ++ ["Data successfully sent to backend!"])%list
      /\ state (fst result)
         = {| isAuthenticated := isAuthenticated s; isLoading := false;
              spreadsheets := spreadsheets s;
              selectedSpreadsheet := selectedSpreadsheet s;
              selectedSheet := selectedSheet s; sheetData := Some d;
              error := "" |}
  | None => result = (w, Fulfilled tt)
  end.
Proof.
  intros s result Htimer. subst s result.
  unfold GoogleSheetsIntegration.sendToBackend.
  destruct (sheetData (state w)) as [d|] eqn:E; [|reflexivity].
  cbn. rewrite Htimer. cbn. rewrite ?E. repeat split.
Qed.

Lemma X6_sendToBackend_witness :
  timerOnly (timer 1000) = Fulfilled tt
  /\ issued (fst (run timerOnly
               (GoogleSheetsIntegration.sendToBackend afterFailure)
               (pageWith afterFailure))) = [timer 1000]
  /\ alerts (fst (run timerOnly
               (GoogleSheetsIntegration.sendToBackend afterFailure)
               (pageWith afterFailure)))
     = ["Data successfully sent to backend!"].
Proof.
  split; [reflexivity|].
  pose proof (X6_sendToBackend_sends_nothing timerOnly (pageWith afterFailure)
                eq_refl) as (_ & Hissued & Halerts & _).
  split; [exact Hissued | exact Halerts].
Defined.

(** X7. The controller's session check composes the status request with
    the list load: when the session is live the flag is raised and the
    spreadsheet list is loaded in the same run, exactly as
    [loadSpreadsheets] would from there; when the session is not live, or
    the status request failed, only the flag is lowered: no list request
    goes out and the banner is not touched. *)
Theorem X7_checkAuthStatus_then_load (net : Network) (w : World) :
  let w' := fst (run net GoogleSheetsIntegration.checkAuthStatus w) in
  let flagged b :=
    exec (setIsAuthenticated b)
      (fst (run net googleSheetsAPI.checkAuthStatus w)) in
  if statusAnswer (net statusRequest)
  then w' = fst (run net GoogleSheetsIntegration.loadSpreadsheets (flagged true))
       /\ issued w' = (issued w ++ [statusRequest; spreadsheetsRequest])%list
  else w' = flagged false
       /\ issued w' = (issued w ++ [statusRequest])%list
       /\ state w' = update (setIsAuthenticated false) (state w).
Proof.
  unfold statusAnswer, statusRequest, spreadsheetsRequest. cbn.
  destruct (net (axios_get AuthStatusBody _)) as [[[[|]]]|]; cbn.
  - split.
    + destruct (net (axios_get SpreadsheetsBody _)); reflexivity.
    + destruct (net (axios_get SpreadsheetsBody _)); cbn;
        rewrite <- app_assoc; reflexivity.
  - repeat split.
  - repeat split.
Qed.

(** ** Mounting *)

(** X8. The flag raised by [auth=success] lasts until the session check
    answers: when the status request parked at mount settles, the
    authenticated flag becomes what it says, so a session that is not live,
    or a failed status request, puts the page back into its initial,
    unauthenticated state without any message. *)
Theorem X8_status_answer_overrides_oauth_success
  (loc : Location) (net : Network) :
  get (search loc) "auth" = Some "success" ->
  isAuthenticated (state (mounted loc)) = true
  /\ isAuthenticated (state (settle net 0 (mounted loc)))
     = statusAnswer (net statusRequest)
  /\ (statusAnswer (net statusRequest) = false ->
      state (settle net 0 (mounted loc)) = initialState).
Proof.
  intros H. unfold mounted, GoogleSheetsIntegration.useEffect, settle,
    statusAnswer, statusRequest.
  cbn. rewrite H. cbn.
  destruct (net (axios_get AuthStatusBody _)) as [[[[|]]]|]; cbn;
    repeat split; try reflexivity; discriminate.
Qed.

Lemma X8_status_answer_witness :
  get (search returnedOk) "auth" = Some "success"
  /\ isAuthenticated (state (mounted returnedOk)) = true
  /\ state (settle offline 0 (mounted returnedOk)) = initialState.
Proof.
  split; [reflexivity|].
  pose proof (X8_status_answer_overrides_oauth_success returnedOk offline
                eq_refl) as (Hup & _ & Hdown).
  split; [exact Hup | exact (Hdown eq_refl)].
Defined.

(** X9. Mounting issues exactly one request, the session check, and parks
    one function on it, whatever the address; the page does not navigate
    and the loading flag stays down. When the [auth] parameter is missing
    or is neither [success] nor [error], the state is the initial one and
    the address keeps its query. *)
Theorem X9_mount_issues_status_only (loc : Location) :
  issued (mounted loc) = [statusRequest]
  /\ List.length (inflight (mounted loc)) = 1%nat
  /\ navigated (mounted loc) = None
  /\ isLoading (state (mounted loc)) = false
  /\ (is_string (get (search loc) "auth") "success" = false ->
      is_string (get (search loc) "auth") "error" = false ->
      state (mounted loc) = initialState /\ location (mounted loc) = loc).
Proof.
  unfold mounted, GoogleSheetsIntegration.useEffect. cbn.
  destruct (is_string (get (search loc) "auth") "success");
    [|destruct (is_string (get (search loc) "auth") "error")];
    cbn; repeat split; try discriminate.
Qed.

Lemma X9_mount_witness :
  is_string (get (search unrelatedQuery) "auth") "success" = false
  /\ is_string (get (search unrelatedQuery) "auth") "error" = false
  /\ state (mounted unrelatedQuery) = initialState
  /\ location (mounted unrelatedQuery) = unrelatedQuery.
Proof.
  split; [reflexivity|]. split; [reflexivity|].
  exact (proj2 (proj2 (proj2 (proj2
           (X9_mount_issues_status_only unrelatedQuery)))) eq_refl eq_refl).
Defined.

(** ** What the view offers and shows *)

Lemma in_sheetActions (s : State) (a : Action) :
  In a (sheetActions s)
  <-> exists sel sheet,
        selectedSpreadsheet s = Some sel
        /\ In sheet (SpreadsheetInfo.sheets sel)
        /\ a = OnSheet (Sheet.title sheet).
Proof.
  unfold sheetActions. destruct (selectedSpreadsheet s) as [sel|].
  - rewrite in_map_iff. split.
    + intros (sheet & Heq & Hin). exists sel, sheet.
      repeat split; [exact Hin | congruence].
    + intros (sel' & sheet & Hsel & Hin & Ht). exists sheet.
      split; [congruence | congruence].
  - split; [intros []|].
    intros (sel & sheet & Hsel & _). discriminate.
Qed.

(** The handlers on offer, as a disjunction. *)
Lemma in_clickable (s : State) (a : Action) :
  In a (clickable (View.render s))
  <-> (isAuthenticated s = false /\ isLoading s = false /\ a = OnLogin)
      \/ (isAuthenticated s = true
          /\ (a = OnLogout
              \/ (isLoading s = false /\ a = OnRefresh)
              \/ (exists sp, In sp (spreadsheets s) /\ a = OnSpreadsheet sp)
              \/ (isLoading s = false /\ In a (sheetActions s))
              \/ (isLoading s = false /\ sheetData s <> None /\ a = OnSend))).
Proof.
  rewrite clickable_render.
  destruct (isAuthenticated s).
  - cbn [In]. rewrite !in_app_iff, in_map_iff. split.
    + intros [H|[H|[H|[H|H]]]]; right; (split; [reflexivity|]).
      * left. congruence.
      * destruct (isLoading s); [destruct H|].
        destruct H as [H|[]]. right. left. split; congruence.
      * destruct H as (sp & Heq & Hin). right. right. left.
        exists sp. split; congruence.
      * destruct (isLoading s); [destruct H|].
        right. right. right. left. split; [reflexivity | exact H].
      * destruct (sheetData s); [|destruct H].
        destruct (isLoading s); [destruct H|].
        destruct H as [H|[]]. right. right. right. right.
        repeat split; congruence.
    + intros [(H & _)|(_ & H)]; [discriminate|].
      destruct H as [H|[(Hl & H)|[(sp & Hin & H)|[(Hl & H)|(Hl & Hd & H)]]]].
      * left. congruence.
      * right. left. rewrite Hl. left. congruence.
      * right. right. left. exists sp. split; congruence.
      * right. right. right. left. rewrite Hl. exact H.
      * right. right. right. right. rewrite Hl.
        destruct (sheetData s); [left; congruence | congruence].
  - split.
    + intros H. left. destruct (isLoading s); [destruct H|].
      destruct H as [H|[]]. repeat split; congruence.
    + intros [(_ & Hl & H)|(H & _)]; [|discriminate].
      rewrite Hl. left. congruence.
Qed.

(** X10. What a user can do in the view of a state. Login: only in the
    unauthenticated view, and not while loading. Logout: whenever
    authenticated, also while loading. Refresh: authenticated and not
    loading. A spreadsheet card: authenticated, for each spreadsheet of the
    list. A sheet button: authenticated and not loading, for each sheet of
    the selected spreadsheet (none when it has no sheets). Send: when
    authenticated, not loading and a preview is held. *)
Theorem X10_view_offers (s : State) :
  let offered a := In a (clickable (View.render s)) in
  (offered OnLogin <-> isAuthenticated s = false /\ isLoading s = false)
  /\ (offered OnLogout <-> isAuthenticated s = true)
  /\ (offered OnRefresh <-> isAuthenticated s = true /\ isLoading s = false)
  /\ (forall spreadsheet,
        offered (OnSpreadsheet spreadsheet)
        <-> isAuthenticated s = true /\ In spreadsheet (spreadsheets s))
  /\ (forall title,
        offered (OnSheet title)
        <-> isAuthenticated s = true /\ isLoading s = false
            /\ exists sel sheet,
                 selectedSpreadsheet s = Some sel
                 /\ In sheet (SpreadsheetInfo.sheets sel)
                 /\ Sheet.title sheet = title)
  /\ (offered OnSend
      <-> isAuthenticated s = true /\ isLoading s = false
          /\ sheetData s <> None).
Proof.
  cbv beta zeta.
  assert (Hsh : forall a, In a (sheetActions s) -> exists t, a = OnSheet t).
  { intros a Ha. apply in_sheetActions in Ha.
    destruct Ha as (sel & sheet & _ & _ & ->). eexists. reflexivity. }
  split; [|split; [|split; [|split; [|split]]]]; try intros x;
    rewrite in_clickable; split.
  - intros [(Ha & Hl & _)|(_ & H)]; [split; assumption|].
    destruct H as [H|[(_ & H)|[(sp & _ & H)|[(_ & H)|(_ & _ & H)]]]];
      try discriminate H.
    destruct (Hsh _ H) as (t & Ht). discriminate Ht.
  - intros (Ha & Hl). left. repeat split; assumption.
  - intros [(_ & _ & H)|(Ha & _)]; [discriminate H | exact Ha].
  - intros Ha. right. split; [exact Ha | left; reflexivity].
  - intros [(_ & _ & H)|(Ha & H)]; [discriminate H|].
    destruct H as [H|[(Hl & _)|[(sp & _ & H)|[(_ & H)|(_ & _ & H)]]]];
      try discriminate H.
    + split; assumption.
    + destruct (Hsh _ H) as (t & Ht). discriminate Ht.
  - intros (Ha & Hl). right. split; [exact Ha|].
    right. left. split; [exact Hl | reflexivity].
  - intros [(_ & _ & H)|(Ha & H)]; [discriminate H|].
    destruct H as [H|[(_ & H)|[(sp & Hin & H)|[(_ & H)|(_ & _ & H)]]]];
      try discriminate H.
    + injection H as ->. split; assumption.
    + destruct (Hsh _ H) as (t & Ht). discriminate Ht.
  - intros (Ha & Hin). right. split; [exact Ha|].
    right. right. left. exists x. split; [exact Hin | reflexivity].
  - intros [(_ & _ & H)|(Ha & H)]; [discriminate H|].
    destruct H as [H|[(_ & H)|[(sp & _ & H)|[(Hl & H)|(_ & _ & H)]]]];
      try discriminate H.
    apply in_sheetActions in H.
    destruct H as (sel & sheet & Hsel & Hin & Heq).
    injection Heq as ->.
    repeat split; try assumption.
    exists sel, sheet. repeat split; assumption.
  - intros (Ha & Hl & sel & sheet & Hsel & Hin & Ht).
    right. split; [exact Ha|].
    right. right. right. left. split; [exact Hl|].
    apply in_sheetActions. exists sel, sheet. subst x. repeat split; assumption.
  - intros [(_ & _ & H)|(Ha & H)]; [discriminate H|].
    destruct H as [H|[(_ & H)|[(sp & _ & H)|[(_ & H)|(Hl & Hd & _)]]]];
      try discriminate H.
    + destruct (Hsh _ H) as (t & Ht). discriminate Ht.
    + repeat split; assumption.
  - intros (Ha & Hl & Hd). right. split; [exact Ha|].
    right. right. right. right. repeat split; assumption.
Qed.

Lemma banner_in_errorBanner (s : State) :
  existsb (occurs "error-message") (View.errorBanner s) = nonempty (error s).
Proof.
  unfold View.errorBanner. destruct (nonempty (error s)); reflexivity.
Qed.

Lemma no_banner_in_spreadsheetsSection (s : State) :
  occurs "error-message" (View.spreadsheetsSection s) = false.
Proof.
  unfold View.spreadsheetsSection.
  destruct (0 <? List.length (spreadsheets s))%nat, (isLoading s);
    try reflexivity;
    cbn; (rewrite existsb_map_false; [reflexivity|]);
    intros sp; reflexivity.
Qed.

Lemma no_banner_in_sheetSelection (s : State) :
  existsb (occurs "error-message") (View.sheetSelection s) = false.
Proof.
  unfold View.sheetSelection.
  destruct (selectedSpreadsheet s) as [sel|]; [|reflexivity].
  cbn. rewrite existsb_map_false; [reflexivity|].
  intros sh. reflexivity.
Qed.

Lemma no_banner_in_previewSection (s : State) (d : SheetData.t) :
  occurs "error-message" (View.previewSection s d) = false.
Proof.
  destruct (no_class_in_table "error-message" d eq_refl) as [Hh Hb].
  unfold View.previewSection, View.dataPreview, View.tableContainer.
  destruct (0 <? List.length (SheetData.headers d))%nat,
           (5 <? List.length (SheetData.data d))%nat;
    cbn; rewrite ?Hh, ?Hb; reflexivity.
Qed.

(** X11. In both views the error banner is rendered exactly when the
    error text is not empty, and it then carries that text. *)
Theorem X11_banner_shown_iff_error (s : State) :
  occurs "error-message" (View.render s) = nonempty (error s)
  /\ map textContent (View.errorBanner s)
     = if nonempty (error s) then [error s] else [].
Proof.
  split.
  - unfold View.render. destruct (negb (isAuthenticated s)).
    + unfold View.unauthenticated. cbn.
      rewrite existsb_app, banner_in_errorBanner.
      destruct (isLoading s), (nonempty (error s)); reflexivity.
    + unfold View.authenticated. cbn.
      rewrite existsb_app, banner_in_errorBanner.
      cbn [existsb].
      rewrite no_banner_in_spreadsheetsSection.
      rewrite existsb_app, no_banner_in_sheetSelection.
      destruct (sheetData s) as [d|]; cbn;
        rewrite ?no_banner_in_previewSection;
        destruct (nonempty (error s)); reflexivity.
  - unfold View.errorBanner.
    destruct (nonempty (error s)); [|reflexivity].
    cbn. destruct (error s); reflexivity.
Qed.

Lemma textContent_cells {A : Type} (tag : string) (l : list A)
  (f : A -> string) (i : nat) :
  map textContent (mapi_from i (fun x _ => el tag "" [Text (f x)]) l)
  = map f l.
Proof.
  rewrite mapi_from_const_map, mapi_from_ignore_index.
  apply map_ext. intros x. reflexivity.
Qed.

(** X13. The header row lists every header, in order, and the summary
    above the table spells the number of headers and the number of all
    data rows, also of those beyond the five the table shows; the summary
    is there even when no table is rendered. *)
Theorem X13_header_row_and_summary (d : SheetData.t) :
  cellTexts (View.thead d) = [SheetData.headers d]
  /\ map textContent
       (childrenOf (hd (Text "") (childrenOf (View.dataPreview d))))
     = ["Headers: " ++ show_nat (List.length (SheetData.headers d));
        "Rows: " ++ show_nat (List.length (SheetData.data d))].
Proof.
  split.
  - unfold cellTexts, View.thead, mapi. cbn [childrenOf el map].
    rewrite (textContent_cells "th" (SheetData.headers d) (fun h => h)).
    rewrite map_id. reflexivity.
  - unfold View.dataPreview. reflexivity.
Qed.

(** ** Invariants of the event loop *)

Lemma inflight_exec (c : Cmd) (w : World) : inflight (exec c w) = inflight w.
Proof. destruct c; reflexivity. Qed.


Lemma state_exec (c : Cmd) (w : World) : state (exec c w) = update c (state w).
Proof. destruct c; reflexivity. Qed.

Lemma inflight_runCmds (cmds : list Cmd) (w : World) :
  inflight (runCmds cmds w) = inflight w.
Proof.
  revert w. induction cmds as [|c cmds IH]; intros w; cbn.
  - reflexivity.
  - unfold runCmds in IH. rewrite IH. apply inflight_exec.
Qed.


Lemma state_runCmds (cmds : list Cmd) (w : World) :
  state (runCmds cmds w) = updates cmds (state w).
Proof.
  revert w. induction cmds as [|c cmds IH]; intros w; cbn.
  - reflexivity.
  - unfold runCmds, updates in IH. rewrite IH, state_exec. reflexivity.
Qed.

Section Invariant.

(** A judgement [Q] on turns and a property [I] of pages that does not
    look at the requests in flight and that every turn judged by [Q]
    keeps. *)
Variable Q : list Cmd -> option Promise -> Prop.
Variable I : World -> Prop.
Hypothesis I_inflight : forall w l, I w -> I (with_inflight l w).
Hypothesis I_stop : forall w cmds, I w -> Q cmds None -> I (runCmds cmds w).
Hypothesis I_park :
  forall w cmds p, I w -> Q cmds (Some p) -> I (issue p (runCmds cmds w)).

Lemma launch_kept (pre : list Cmd) (t : Proc unit) :
  Throughout Q pre t ->
  forall w, Kept Q I w -> Kept Q I (launch t (runCmds pre w)).
Proof.
  induction 1 as [pre a HQ|pre e HQ|pre c k _ IH|pre p k HQ Hk _];
    intros w [HI Htame].
  - split; [apply I_stop; assumption|].
    cbn. rewrite inflight_runCmds. exact Htame.
  - split; [apply I_stop; assumption|].
    cbn. rewrite inflight_runCmds. exact Htame.
  - cbn [launch].
    replace (exec c (runCmds pre w)) with (runCmds (pre ++ [c]) w)
      by (unfold runCmds; rewrite fold_left_app; reflexivity).
    apply IH. split; assumption.
  - cbn [launch]. split.
    + apply I_inflight, I_park; assumption.
    + cbn. rewrite inflight_runCmds. apply Forall_app. split; [exact Htame|].
      constructor; [|constructor]. exact Hk.
Qed.

Hypothesis click_kept :
  forall w a, Kept Q I w -> In a (clickable (View.render (state w))) ->
              Kept Q I (click a w).

Lemma step_kept (w w' : World) : step w w' -> Kept Q I w -> Kept Q I w'.
Proof.
  intros Hstep HK. destruct Hstep as [w a _ Ha|w before after p k r _ Hin].
  - apply click_kept; assumption.
  - destruct HK as [HI Htame]. rewrite Hin in Htame.
    apply Forall_app in Htame. destruct Htame as [Hb Hrest].
    inversion Hrest as [|e l He Ha]; subst.
    apply (launch_kept [] (k r) (He r)).
    split; [apply I_inflight; exact HI|].
    cbn. apply Forall_app. split; assumption.
Qed.

Lemma steps_kept (w w' : World) :
  clos_refl_trans_1n World step w w' -> Kept Q I w -> Kept Q I w'.
Proof.
  induction 1 as [|w w1 w2 Hstep _ IH]; intros HK.
  - exact HK.
  - apply IH. apply (step_kept w w1 Hstep HK).
Qed.

(** The address the page is opened at. *)
Variable loc : Location.
Hypothesis fresh_kept : I (freshPage loc).
Hypothesis status_kept :
  Throughout Q [] GoogleSheetsIntegration.checkAuthStatus.
Hypothesis callback_kept :
  Q [setIsAuthenticated true; history_replaceState (pathname loc)] None
  /\ Q [setError (or_else (get (search loc) "message") "Authentication failed");
        history_replaceState (pathname loc)] None.

Lemma mounted_kept : Kept Q I (mounted loc).
Proof.
  assert (H0 : Kept Q I (freshPage loc)).
  { split; [apply fresh_kept | constructor]. }
  pose proof (launch_kept [] _ status_kept _ H0) as [HI Htame].
  change (runCmds [] (freshPage loc)) with (freshPage loc) in HI, Htame.
  unfold mounted, GoogleSheetsIntegration.useEffect.
  assert (Hloc : location (launch GoogleSheetsIntegration.checkAuthStatus
                             (freshPage loc)) = loc) by reflexivity.
  set (w := launch GoogleSheetsIntegration.checkAuthStatus (freshPage loc))
    in *.
  cbv zeta. rewrite Hloc.
  destruct (is_string (get (search loc) "auth") "success").
  - change (Kept Q I (runCmds [setIsAuthenticated true;
                               history_replaceState (pathname loc)] w)).
    split; [apply I_stop; [exact HI | apply callback_kept]|].
    rewrite inflight_runCmds. exact Htame.
  - destruct (is_string (get (search loc) "auth") "error").
    + change (Kept Q I
                (runCmds [setError (or_else (get (search loc) "message")
                                      "Authentication failed");
                          history_replaceState (pathname loc)] w)).
      split; [apply I_stop; [exact HI | apply callback_kept]|].
      rewrite inflight_runCmds. exact Htame.
    + split; assumption.
Qed.

Lemma reachable_kept (w : World) :
  clos_refl_trans_1n World step (mounted loc) w -> Kept Q I w.
Proof.
  intros Hsteps. apply (steps_kept _ _ Hsteps). apply mounted_kept.
Qed.

End Invariant.


Lemma click_throughout (Q : list Cmd -> option Promise -> Prop)
  (I : World -> Prop) :
  (forall w l, I w -> I (with_inflight l w)) ->
  (forall w cmds, I w -> Q cmds None -> I (runCmds cmds w)) ->
  (forall w cmds p, I w -> Q cmds (Some p) -> I (issue p (runCmds cmds w))) ->
  forall w a,
    Throughout Q [] (View.handler (state w) a) ->
    Kept Q I w -> Kept Q I (click a w).
Proof.
  intros H1 H2 H3 w a Ht HK.
  exact (launch_kept Q I H1 H2 H3 [] _ Ht w HK).
Qed.



Lemma click_keeps_sheetUnderSpreadsheet (w : World) (a : Action) :
  Kept keepsSheetUnderSpreadsheet (fun w => sheetUnderSpreadsheet (state w)) w ->
  Kept keepsSheetUnderSpreadsheet (fun w => sheetUnderSpreadsheet (state w))
    (click a w).
Proof.
  intros HK.
  assert (H1 : forall (w : World) (l : list Suspended),
             sheetUnderSpreadsheet (state w) ->
             sheetUnderSpreadsheet (state (with_inflight l w))).
  { intros w0 l H. exact H. }
  assert (H2 : forall w cmds,
             sheetUnderSpreadsheet (state w) ->
             keepsSheetUnderSpreadsheet cmds None ->
             sheetUnderSpreadsheet (state (runCmds cmds w))).
  { intros w0 cmds H HQ. rewrite state_runCmds. apply HQ. exact H. }
  assert (H3 : forall w cmds p,
             sheetUnderSpreadsheet (state w) ->
             keepsSheetUnderSpreadsheet cmds (Some p) ->
             sheetUnderSpreadsheet (state (issue p (runCmds cmds w)))).
  { intros w0 cmds p H HQ. cbn. rewrite state_runCmds. apply HQ. exact H. }
  destruct a as [| | |sp|title|];
    try (apply (click_throughout _ _ H1 H2 H3); [|exact HK];
         unfold View.handler, GoogleSheetsIntegration.sendToBackend;
         walk keepsSheet).
  unfold click, View.handler, GoogleSheetsIntegration.handleSheetSelect,
    googleSheetsAPI.getSheetData, encodeURIComponent.
  destruct (selectedSpreadsheet (state w)) as [sel|] eqn:E; [|exact HK].
  destruct HK as [HI Htame].
  destruct (wellFormed title); cbn; split.
  - unfold sheetUnderSpreadsheet. cbn. rewrite E. intros _. discriminate.
  - apply Forall_app. split; [exact Htame|].
    constructor; [|constructor].
    intros [v|e]; walk keepsSheet.
  - unfold sheetUnderSpreadsheet. cbn. rewrite E. intros _. discriminate.
  - exact Htame.
Qed.

(** X17. In every reachable state, a selected sheet name is held only
    together with a selected spreadsheet, however clicks and responses
    interleave: the name is set only by a click on a sheet button of the
    selected spreadsheet, and logout drops both in one turn. *)
Theorem X17_sheet_name_only_under_spreadsheet (w : World) :
  reachable w -> sheetUnderSpreadsheet (state w).
Proof.
  intros [loc Hsteps].
  refine (proj1 (reachable_kept keepsSheetUnderSpreadsheet
                   (fun w => sheetUnderSpreadsheet (state w))
                   _ _ _ _ loc _ _ _ w Hsteps)).
  - intros w0 l H. exact H.
  - intros w0 cmds H HQ. rewrite state_runCmds. apply HQ. exact H.
  - intros w0 cmds p H HQ. cbn. rewrite state_runCmds. apply HQ. exact H.
  - intros w0 a HK _. apply click_keeps_sheetUnderSpreadsheet. exact HK.
  - intros H. exfalso. apply H. reflexivity.
  - walk keepsSheet.
  - split; keepsSheet.
Qed.

Lemma sheetRequested_playable : playable sheetRequestedTrace (mounted home).
Proof. unfold sheetRequestedTrace. do 4 turn. exact Logic.I. Qed.

Lemma X17_sheet_name_witness :
  reachable (play sheetRequestedTrace (mounted home))
  /\ selectedSheet (state (play sheetRequestedTrace (mounted home)))
     = "Sales Q1"
  /\ sheetUnderSpreadsheet (state (play sheetRequestedTrace (mounted home))).
Proof.
  assert (H : reachable (play sheetRequestedTrace (mounted home))).
  { apply play_reachable, sheetRequested_playable. }
  split; [exact H|]. split; [reflexivity|].
  exact (X17_sheet_name_only_under_spreadsheet _ H).
Defined.






(** X20. The banner never shows anything but a text of the page's own:
    in every state reachable from a page opened at [loc], the error text is
    empty, one of the six fixed messages of the handlers, or the message
    the address carried (its default when none). What made a request fail
    never reaches the banner. *)
Theorem X20_banner_texts (loc : Location) (w : World) :
  clos_refl_trans_1n World step (mounted loc) w ->
  In (error (state w)) (bannersOf loc).
Proof.
  intros Hsteps.
  set (I := fun w : World => In (error (state w)) (bannersOf loc)).
  assert (H1 : forall w l, I w -> I (with_inflight l w)).
  { intros w0 l H. exact H. }
  assert (H2 : forall w cmds,
             I w -> setsKnownBanner loc cmds None -> I (runCmds cmds w)).
  { intros w0 cmds H HQ. unfold I. rewrite state_runCmds. apply HQ. exact H. }
  assert (H3 : forall w cmds p,
             I w -> setsKnownBanner loc cmds (Some p) ->
             I (issue p (runCmds cmds w))).
  { intros w0 cmds p H HQ. unfold I. cbn [issue state].
    rewrite state_runCmds. apply HQ. exact H. }
  refine (proj1 (reachable_kept (setsKnownBanner loc) I H1 H2 H3 _ loc _ _ _
                   w Hsteps)).
  - intros w0 a HK _.
    apply (click_throughout _ I H1 H2 H3); [|exact HK].
    destruct a as [| | |sp|title|];
      unfold View.handler, GoogleSheetsIntegration.handleSheetSelect,
        GoogleSheetsIntegration.sendToBackend;
      walk knownBanner.
  - left. reflexivity.
  - walk knownBanner.
  - split; knownBanner.
Qed.

Lemma deniedThenLogin_playable :
  playable [Settle 0 offline; Click OnLogin; Settle 0 offline]
    (mounted returnedDenied).
Proof. do 3 turn. exact Logic.I. Qed.

Lemma X20_banner_texts_witness :
  error (state (mounted returnedDenied)) = "access_denied"
  /\ error (state (play [Settle 0 offline; Click OnLogin; Settle 0 offline]
                     (mounted returnedDenied)))
     = "Failed to initiate Google login"
  /\ In (error (state (play [Settle 0 offline; Click OnLogin; Settle 0 offline]
                         (mounted returnedDenied))))
        (bannersOf returnedDenied).
Proof.
  split; [reflexivity|]. split; [reflexivity|].
  apply X20_banner_texts.
  apply play_steps, deniedThenLogin_playable.
Defined.

(** ** The sections of the view *)

Lemma occurs_authenticated (c : string) (s : State) :
  forallb (fun cls => negb (String.eqb cls c))
    ["integration-container"; "header"; "header-content"; "";
     "logout-button"] = true ->
  occurs c (View.authenticated s)
  = existsb (occurs c) (View.errorBanner s)
    || occurs c (View.spreadsheetsSection s)
    || existsb (occurs c) (View.sheetSelection s)
    || match sheetData s with
       | Some d => occurs c (View.previewSection s d)
       | None => false
       end.
Proof.
  intros H. cbn [forallb] in H.
  repeat (apply andb_prop in H; destruct H as [?H H]).
  repeat match goal with
         | H : negb _ = true |- _ => apply negb_true_iff in H
         end.
  unfold View.authenticated, div, button, icon, el.
  cbn [occurs existsb app].
  repeat match goal with
         | H : String.eqb _ c = false |- _ => rewrite H
         end.
  cbn [orb].
  rewrite existsb_app. cbn [existsb].
  rewrite existsb_app.
  destruct (sheetData s); cbn [existsb];
    rewrite ?orb_false_r, ?orb_assoc; reflexivity.
Qed.

Lemma sections_of_spreadsheets (s : State) :
  occurs "empty-state" (View.spreadsheetsSection s) = isEmpty (spreadsheets s)
  /\ occurs "sheets-list" (View.spreadsheetsSection s) = false
  /\ occurs "logout-button" (View.spreadsheetsSection s) = false
  /\ occurs "connect-button" (View.spreadsheetsSection s) = false.
Proof.
  unfold View.spreadsheetsSection.
  destruct (spreadsheets s) as [|sp l]; cbn [List.length Nat.ltb Nat.leb isEmpty];
    repeat split; split_cases;
    repeat (rewrite existsb_map_false; [|intros ?; reflexivity]);
    reflexivity.
Qed.

Lemma sections_of_sheetSelection (s : State) :
  existsb (occurs "empty-state") (View.sheetSelection s) = false
  /\ existsb (occurs "sheets-list") (View.sheetSelection s)
     = isSome (selectedSpreadsheet s)
  /\ existsb (occurs "logout-button") (View.sheetSelection s) = false
  /\ existsb (occurs "connect-button") (View.sheetSelection s) = false.
Proof.
  unfold View.sheetSelection.
  destruct (selectedSpreadsheet s) as [sel|]; cbn [isSome];
    repeat split; split_cases;
    repeat (rewrite existsb_map_false; [|intros ?; reflexivity]);
    reflexivity.
Qed.

Lemma sections_of_preview (s : State) (d : SheetData.t) :
  occurs "empty-state" (View.previewSection s d) = false
  /\ occurs "sheets-list" (View.previewSection s d) = false
  /\ occurs "data-preview" (View.previewSection s d) = true
  /\ occurs "logout-button" (View.previewSection s d) = false
  /\ occurs "connect-button" (View.previewSection s d) = false.
Proof.
  destruct (no_class_in_table "empty-state" d eq_refl) as [Hh1 Hb1].
  destruct (no_class_in_table "sheets-list" d eq_refl) as [Hh2 Hb2].
  destruct (no_class_in_table "logout-button" d eq_refl) as [Hh3 Hb3].
  destruct (no_class_in_table "connect-button" d eq_refl) as [Hh4 Hb4].
  unfold View.previewSection, View.dataPreview, View.tableContainer.
  destruct (0 <? List.length (SheetData.headers d))%nat,
           (5 <? List.length (SheetData.data d))%nat, (isLoading s);
    cbn; rewrite ?Hh1, ?Hb1, ?Hh2, ?Hb2, ?Hh3, ?Hb3, ?Hh4, ?Hb4;
    repeat split.
Qed.

Lemma sections_of_errorBanner (c : string) (s : State) :
  String.eqb "error-message" c = false ->
  existsb (occurs c) (View.errorBanner s) = false.
Proof.
  intros H. unfold View.errorBanner, when, div, el.
  destruct (nonempty (error s)); cbn [existsb occurs];
    rewrite ?H; reflexivity.
Qed.

(** X21. Which parts a view is made of. The unauthenticated view has the
    connect button and none of the sections, whatever the state holds. The
    authenticated view has the logout button; it shows the empty-list
    notice exactly when the list is empty (also before the first list
    response), the sheet list exactly when a spreadsheet is selected, and
    the preview exactly when one is held. *)
Theorem X21_sections_of_the_view (s : State) :
  occurs "connect-button" (View.render s) = negb (isAuthenticated s)
  /\ occurs "logout-button" (View.render s) = isAuthenticated s
  /\ occurs "empty-state" (View.render s)
     = isAuthenticated s && isEmpty (spreadsheets s)
  /\ occurs "sheets-list" (View.render s)
     = isAuthenticated s && isSome (selectedSpreadsheet s)
  /\ occurs "data-preview" (View.render s)
     = isAuthenticated s && isSome (sheetData s).
Proof.
  destruct (sections_of_spreadsheets s) as (Hs1 & Hs2 & Hs3 & Hs4).
  destruct (sections_of_sheetSelection s) as (Hl1 & Hl2 & Hl3 & Hl4).
  pose proof (sections_of_preview s) as Hp.
  pose proof (fun c H => sections_of_errorBanner c s H) as Hb.
  unfold View.render. destruct (isAuthenticated s); cbn [negb andb].
  - split; [|split; [|split; [|split]]].
    + rewrite occurs_authenticated by reflexivity.
      rewrite Hb, Hs4, Hl4 by reflexivity.
      destruct (sheetData s) as [d|]; [apply (Hp d)|reflexivity].
    + unfold View.authenticated. cbn. reflexivity.
    + rewrite occurs_authenticated by reflexivity.
      rewrite Hb, Hs1, Hl1 by reflexivity.
      destruct (sheetData s) as [d|];
        [rewrite (proj1 (Hp d))|]; rewrite ?orb_false_r; reflexivity.
    + rewrite occurs_authenticated by reflexivity.
      rewrite Hb, Hs2, Hl2 by reflexivity.
      destruct (sheetData s) as [d|];
        [rewrite (proj1 (proj2 (Hp d)))|]; rewrite ?orb_false_r; reflexivity.
    + rewrite occurs_authenticated by reflexivity.
      rewrite Hb, no_preview_in_spreadsheetsSection,
        no_preview_in_sheetSelection by reflexivity.
      destruct (sheetData s) as [d|];
        [rewrite (proj1 (proj2 (proj2 (Hp d))))|]; reflexivity.
  - unfold View.unauthenticated, View.errorBanner.
    destruct (nonempty (error s)), (isLoading s); repeat split.
Qed.

(** ** The preview invariant, handler by handler *)

(** X19. Every click handler, run in one go from a state in which a
    preview is only held together with a selected spreadsheet and a sheet
    name, ends in such a state again, as long as a clicked sheet has a
    title. *)
Theorem X19_handlers_keep_preview_invariant
  (net : Network) (w : World) (a : Action) :
  (forall title, a = OnSheet title -> title <> "") ->
  previewInvariant (state w) ->
  previewInvariant (state (fst (run net (View.handler (state w) a) w))).
Proof. apply previewInvariant_run. Qed.

Lemma X19_handlers_keep_preview_invariant_witness :
  previewInvariant (state (pageWith budgetSelected))
  /\ sheetData (state (fst (run backend
                   (View.handler (state (pageWith budgetSelected))
                      (OnSheet "Sales Q1"))
                   (pageWith budgetSelected)))) = Some salesQ1
  /\ previewInvariant
       (state (fst (run backend
                 (View.handler (state (pageWith budgetSelected))
                    (OnSheet "Sales Q1"))
                 (pageWith budgetSelected)))).
Proof.
  assert (H0 : previewInvariant (state (pageWith budgetSelected))).
  { intros H. exfalso. apply H. reflexivity. }
  split; [exact H0|]. split; [reflexivity|].
  apply (X19_handlers_keep_preview_invariant backend
           (pageWith budgetSelected) (OnSheet "Sales Q1")); [|exact H0].
  intros title Ht. injection Ht as <-. discriminate.
Defined.

(** ** Selecting a spreadsheet, seen from the event loop *)

(** X12. A click on the card of spreadsheet [B] is one synchronous turn:
    [B] becomes the selected spreadsheet, the sheet name and the preview
    are emptied, no request is issued and nothing is parked; the view of
    the resulting state has no preview, and the next sheet click hands
    [axios.get] a URL under the id of [B], or no URL at all when the sheet
    name cannot be encoded. *)
Theorem X12_spreadsheet_click_clears (w : World) (B : SpreadsheetInfo.t) :
  let w' := click (OnSpreadsheet B) w in
  selectedSpreadsheet (state w') = Some B
  /\ selectedSheet (state w') = ""
  /\ sheetData (state w') = None
  /\ issued w' = issued w
  /\ inflight w' = inflight w
  /\ occurs "data-preview" (View.render (state w')) = false
  /\ forall sheetName,
       issued (click (OnSheet sheetName) w')
       = if wellFormed sheetName
         then (issued w
               ++ [sheetRequest (SpreadsheetInfo.spreadsheet_id B)
                     sheetName])%list
         else issued w.
Proof.
  destruct (spreadsheet_select_clears w B)
    as (H1 & H2 & H3 & H4 & H5 & H6 & _).
  repeat (split; [assumption|]).
  intros sheetName. cbn.
  unfold googleSheetsAPI.getSheetData, encodeURIComponent.
  destruct (wellFormed sheetName); reflexivity.
Qed.
